(** * cuda-api-wrappers: kernel proxies, scoped overrides and the launch dispatcher

    A shallow embedding of [src/cuda/api/kernel.hpp],
    [src/cuda/api/miscellany.hpp] and [src/cuda/api/multi_wrapper_impls.hpp].

    The wrappers are thin stateful code over the CUDA driver: every function
    is modelled as a computation over a [world] holding the per-thread ambient
    "current device / current context" and the list of native driver calls
    issued so far.  C++ exceptions are the [Thrown] outcome; an exception
    leaving a [noexcept] function is [std_terminate]. *)

From Stdlib Require Import ZArith List String Bool Lia.
From Stdlib Require Import DecimalString FunctionalExtensionality.
Import ListNotations.
Open Scope string_scope.
Open Scope list_scope.
Open Scope Z_scope.

(** ** Native values *)

(** [::std::to_string] on an integer. *)
Definition to_string (z : Z) : string := NilZero.string_of_int (Z.to_int z).

(** Conversion of an integer value to an unsigned / a signed (two's
    complement) integer type of [bits] bits, as a C++ cast does. *)
Definition cast_unsigned (bits : Z) (z : Z) : Z := z mod 2 ^ bits.
Definition cast_signed (bits : Z) (z : Z) : Z :=
  (z + 2 ^ (bits - 1)) mod 2 ^ bits - 2 ^ (bits - 1).

(** [int]: the type of [device::id_t], and of [kernel::attribute_value_t],
    which [cuFuncGetAttribute] fills through an [int*]. *)
Definition int_bits : Z := 32.
Definition INT_MAX : Z := 2 ^ (int_bits - 1) - 1.
Definition INT_MIN : Z := - 2 ^ (int_bits - 1).
Definition cast_int (z : Z) : Z := cast_signed int_bits z.

(** [status_t] is the native status code; the named values are those of the
    CUDA headers ([cudaSuccess], [cudaErrorNotYetImplemented],
    [cudaErrorNoDevice]). *)
Definition status_t := Z.
Module status.
Definition success : status_t := 0.
Definition not_yet_implemented : status_t := 31.
Definition no_device : status_t := 100.
End status.

Definition is_success (s : status_t) : bool := s =? status.success.

(** [kernel::attribute_t], i.e. [CUfunction_attribute]; the constructors are in
    the order of the enumerators, which is also the order of the table in
    [kernel::detail_::attribute_name]. *)
Inductive attribute_t : Type :=
| CU_FUNC_ATTRIBUTE_MAX_THREADS_PER_BLOCK
| CU_FUNC_ATTRIBUTE_SHARED_SIZE_BYTES
| CU_FUNC_ATTRIBUTE_CONST_SIZE_BYTES
| CU_FUNC_ATTRIBUTE_LOCAL_SIZE_BYTES
| CU_FUNC_ATTRIBUTE_NUM_REGS
| CU_FUNC_ATTRIBUTE_PTX_VERSION
| CU_FUNC_ATTRIBUTE_BINARY_VERSION
| CU_FUNC_ATTRIBUTE_CACHE_MODE_CA
| CU_FUNC_ATTRIBUTE_MAX_DYNAMIC_SHARED_SIZE_BYTES
| CU_FUNC_ATTRIBUTE_PREFERRED_SHARED_MEMORY_CARVEOUT.

Definition attribute_index (a : attribute_t) : Z :=
  match a with
  | CU_FUNC_ATTRIBUTE_MAX_THREADS_PER_BLOCK => 0
  | CU_FUNC_ATTRIBUTE_SHARED_SIZE_BYTES => 1
  | CU_FUNC_ATTRIBUTE_CONST_SIZE_BYTES => 2
  | CU_FUNC_ATTRIBUTE_LOCAL_SIZE_BYTES => 3
  | CU_FUNC_ATTRIBUTE_NUM_REGS => 4
  | CU_FUNC_ATTRIBUTE_PTX_VERSION => 5
  | CU_FUNC_ATTRIBUTE_BINARY_VERSION => 6
  | CU_FUNC_ATTRIBUTE_CACHE_MODE_CA => 7
  | CU_FUNC_ATTRIBUTE_MAX_DYNAMIC_SHARED_SIZE_BYTES => 8
  | CU_FUNC_ATTRIBUTE_PREFERRED_SHARED_MEMORY_CARVEOUT => 9
  end.

(** The runtime API's names for the two attributes it can set. *)
Definition cudaFuncAttributeMaxDynamicSharedMemorySize : attribute_t :=
  CU_FUNC_ATTRIBUTE_MAX_DYNAMIC_SHARED_SIZE_BYTES.
Definition cudaFuncAttributePreferredSharedMemoryCarveout : attribute_t :=
  CU_FUNC_ATTRIBUTE_PREFERRED_SHARED_MEMORY_CARVEOUT.

(** [kernel::detail_::attribute_name] (compiled when [NDEBUG] is not defined). *)
Definition attribute_name (a : attribute_t) : string :=
  match a with
  | CU_FUNC_ATTRIBUTE_MAX_THREADS_PER_BLOCK =>
      "Maximum number of threads per block"
  | CU_FUNC_ATTRIBUTE_SHARED_SIZE_BYTES =>
      "Statically-allocated shared memory size in bytes"
  | CU_FUNC_ATTRIBUTE_CONST_SIZE_BYTES =>
      "Required constant memory size in bytes"
  | CU_FUNC_ATTRIBUTE_LOCAL_SIZE_BYTES =>
      "Required local memory size in bytes"
  | CU_FUNC_ATTRIBUTE_NUM_REGS =>
      "Number of registers used by each thread"
  | CU_FUNC_ATTRIBUTE_PTX_VERSION =>
      "PTX virtual architecture version into which the kernel code was compiled"
  | CU_FUNC_ATTRIBUTE_BINARY_VERSION =>
      "Binary architecture version for which the function was compiled"
  | CU_FUNC_ATTRIBUTE_CACHE_MODE_CA =>
      "Indication whether the function was compiled with cache mode CA"
  | CU_FUNC_ATTRIBUTE_MAX_DYNAMIC_SHARED_SIZE_BYTES =>
      "Maximum allowed size of dynamically-allocated shared memory use size bytes"
  | CU_FUNC_ATTRIBUTE_PREFERRED_SHARED_MEMORY_CARVEOUT =>
      "Preferred shared memory carve-out to actual shared memory"
  end.

(** Occupancy query flags of the runtime API. *)
Definition cudaOccupancyDefault : Z := 0.
Definition cudaOccupancyDisableCachingOverride : Z := 1.

(** The sentinel handle of a device's default stream. *)
Module stream.
Definition default_stream_handle : Z := 0.
End stream.

(** Modelled from the spec: [launch_configuration_t] (declared in
    kernel_launch.hpp, which is not among the sources): grid dimensions and
    block dimensions of up to three components each, the dynamic shared-memory
    byte count and the cooperative-launch flag. *)
Record launch_configuration_t : Type := {
  grid_dimensions : Z * Z * Z;
  block_dimensions : Z * Z * Z;
  dynamic_shared_memory_size : Z;
  block_cooperation : bool
}.

(** ** The driver boundary *)

(** The native calls the modelled functions make.  Handles and function
    pointers are opaque numbers; a kernel's parameter pack is the list of the
    marshalled argument values. *)
Inductive driver_call : Type :=
| cudaGetDeviceCount
| cuFuncGetAttribute (attribute : attribute_t) (handle : Z)
| cudaFuncSetAttribute (ptr : Z) (attribute : attribute_t) (value : Z)
| cudaStreamCreateWithPriority (synchronizes : bool) (priority : Z)
| cudaEventRecord (event_handle stream_handle : Z)
| cudaLaunchKernel (kernel_function : Z) (stream_handle : Z)
    (launch_configuration : launch_configuration_t) (parameters : list Z)
| cudaOccupancyMaxPotentialBlockSizeVariableSMemWithFlags
    (ptr : Z) (block_size_to_dynamic_shared_mem_size : Z -> Z)
    (block_size_limit : Z) (flags : Z).

(** What a native call hands back: its status and its out-parameters. *)
Record response : Type := {
  result_status : status_t;
  out1 : Z;
  out2 : Z
}.

(** The ambient per-thread state every native call implicitly reads. *)
Record ambient_t : Type := {
  current_device : Z;
  current_context : Z
}.

Record world : Type := {
  ambient : ambient_t;
  issued : list driver_call
}.

Definition compute_capability_t : Type := Z * Z.

(** Everything the sources take from outside themselves: the toolkit's macros
    and whether the compiler defines [__CUDACC__], the driver (an arbitrary function of the ambient state, of the calls made
    before and of the call), and the helpers of headers that are not among the
    sources ([device::detail_::identify], [event::detail_::identify],
    [stream::detail_::identify], [detail_::ptr_as_hex],
    [compute_capability_t::from_combined_number], the message
    [cuda::runtime_error] derives from a bare status, the width of the unsigned
    type [memory::shared::size_t]). *)
Record platform : Type := {
  CUDART_VERSION : Z;
  NDEBUG : bool;
  defined_CUDACC : bool;
  driver : ambient_t -> list driver_call -> driver_call -> response;
  device_identify : Z -> string;
  event_identify : Z -> string;
  stream_identify : Z -> Z -> string;
  ptr_as_hex : Z -> string;
  from_combined_number : Z -> compute_capability_t;
  describe : status_t -> string;
  shared_size_bits : Z
}.

(** ** Exceptions and the computation monad *)

Inductive exception : Type :=
| runtime_error (code : status_t) (what : string)   (* cuda::runtime_error *)
| invalid_argument (what : string)                  (* std::invalid_argument *)
| logic_error (what : string).                      (* std::logic_error *)

Inductive outcome (A : Type) : Type :=
| Returned (a : A)
| Thrown (e : exception).
Arguments Returned {A} a.
Arguments Thrown {A} e.

Definition M (A : Type) : Type := world -> outcome A * world.

Definition ret {A} (a : A) : M A := fun w => (Returned a, w).
Definition throw {A} (e : exception) : M A := fun w => (Thrown e, w).
Definition bind {A B} (m : M A) (k : A -> M B) : M B :=
  fun w =>
    match m w with
    | (Returned a, w') => k a w'
    | (Thrown e, w') => (Thrown e, w')
    end.

Notation "x <- m ;; k" := (bind m (fun x => k))
  (at level 61, m at next level, right associativity).
Notation "m ;;; k" := (bind m (fun _ => k))
  (at level 61, right associativity).

(** What a caller of a [noexcept] function can observe: either the function
    completed, or the exception that tried to leave it ended the program. *)
Inductive noexcept_outcome (A : Type) : Type :=
| Completed (a : A) (w : world)
| std_terminate.
Arguments Completed {A} a w.
Arguments std_terminate {A}.

Definition noexcept {A} (m : M A) (w : world) : noexcept_outcome A :=
  match m w with
  | (Returned a, w') => Completed a w'
  | (Thrown _, _) => std_terminate
  end.

(** A call of a function that only some builds contain: [None] marks a
    function that is not compiled in, so that the call is no program at all. *)
Definition invoke {A} (f : option (M A)) (w : world)
  : option (outcome A * world) :=
  match f with
  | Some m => Some (m w)
  | None => None
  end.

Definition is_returned {A} (o : outcome A) : bool :=
  match o with Returned _ => true | Thrown _ => false end.

(** ** Proxies *)

Record device_t : Type := { id_ : Z }.
Module device.
Definition get (id : Z) : device_t := {| id_ := id |}.
End device.
Definition device_eqb (a b : device_t) : bool := id_ a =? id_ b.

Record stream_t : Type := {
  stream_device_id_ : Z;
  stream_handle_ : Z;
  stream_owning : bool
}.

Record event_t : Type := {
  event_device_id_ : Z;
  event_handle_ : Z;
  event_owning : bool
}.

(** [kernel_t]: kernel.hpp declares the members [device_id_],
    [context_handle_] and [handle_]; the method bodies of
    multi_wrapper_impls.hpp reach the kernel's function pointer as [ptr_]. *)
Record kernel_t : Type := {
  device_id_ : Z;
  context_handle_ : Z;
  handle_ : Z;
  ptr_ : Z
}.

Section Wrappers.

Context (P : platform).

(** A native call: ask the driver, remember that the call was issued. *)
Definition native (c : driver_call) : M response :=
  fun w =>
    (Returned (driver P (ambient w) (issued w) c),
     {| ambient := ambient w; issued := issued w ++ [c] |}).

(** Modelled from the spec: [throw_if_error] of error.hpp, which is not among
    the sources: a non-success native status becomes a typed failure carrying
    the code and a contextual message. *)
Definition throw_if_error (result : status_t) (message : string) : M unit :=
  if is_success result then ret tt else throw (runtime_error result message).

(** *** miscellany.hpp *)

Definition count : M Z :=
  r <- native cudaGetDeviceCount ;;
  let device_count := out1 r in
  let result := result_status r in
  if result =? status.no_device then ret 0
  else
    throw_if_error result
      "Failed obtaining the number of CUDA devices on the system" ;;;
    if device_count <? 0 then
      throw (logic_error
        "cudaGetDeviceCount() reports an invalid number of CUDA devices")
    else ret device_count.

(** *** The ambient registry *)

(** What a scoped override targets: [device::current::detail_::scoped_override_t]
    takes a device id, [context::current::detail_::scoped_override_t] a context
    handle. *)
Inductive override_target : Type :=
| override_device (id : Z)
| override_context (handle : Z).

(** The present value of the slot that [t] targets. *)
Definition slot_value (t : override_target) (a : ambient_t) : override_target :=
  match t with
  | override_device _ => override_device (current_device a)
  | override_context _ => override_context (current_context a)
  end.

(** Modelled from the spec: [set_current] of the Ambient Context Registry
    (current_device.hpp and current_context.hpp are not among the sources):
    unconditionally overwrites the ambient state. *)
Definition set_current (t : override_target) (a : ambient_t) : ambient_t :=
  match t with
  | override_device id =>
      {| current_device := id; current_context := current_context a |}
  | override_context handle =>
      {| current_device := current_device a; current_context := handle |}
  end.

Definition with_ambient (a : ambient_t) (w : world) : world :=
  {| ambient := a; issued := issued w |}.

(** Modelled from the spec: the [scoped_override_t] guards of
    current_device.hpp and current_context.hpp, which are not among the
    sources: the guard remembers the prior value and sets the new one; at scope
    exit, on every path (also when the guarded block raises), it restores the
    prior value. *)
Definition scoped_override {A} (t : override_target) (body : M A) : M A :=
  fun w =>
    let prior := slot_value t (ambient w) in
    let '(o, w') := body (with_ambient (set_current t (ambient w)) w) in
    (o, with_ambient (set_current prior (ambient w')) w').

(** Modelled from the spec: [device::current::get] of current_device.hpp: the
    device that is current in the ambient state. *)
Definition current_get : M device_t :=
  fun w => (Returned (device.get (current_device (ambient w))), w).

(** [try { body } catch (...) { handler }], for client code around guards. *)
Definition catch {A} (body handler : M A) : M A :=
  fun w =>
    match body w with
    | (Returned a, w') => (Returned a, w')
    | (Thrown _, w') => handler w'
    end.

(** Client code of the guards: native calls whose failure is thrown, throws,
    sequences, handlers, and guarded blocks nested to any depth. *)
Inductive block : Type :=
| do_native (c : driver_call)
| do_throw (e : exception)
| do_seq (first second : block)
| do_try (body handler : block)
| do_scoped (t : override_target) (body : block).

Fixpoint run (b : block) : M unit :=
  match b with
  | do_native c =>
      r <- native c ;; throw_if_error (result_status r) (describe P (result_status r))
  | do_throw e => throw e
  | do_seq first second => run first ;;; run second
  | do_try body handler => catch (run body) (run handler)
  | do_scoped t body => scoped_override t (run body)
  end.

(** *** kernel.hpp *)

Definition get_attribute_in_current_context
    (handle : Z) (attribute : attribute_t) : M Z :=
  r <- native (cuFuncGetAttribute attribute handle) ;;
  throw_if_error (result_status r)
    ("Failed obtaining attribute " ++
     (if NDEBUG P then to_string (attribute_index attribute)
      else attribute_name attribute)) ;;;
  ret (out1 r).

Definition get_attribute (k : kernel_t) (attribute : attribute_t) : M Z :=
  scoped_override (override_context (context_handle_ k))
    (get_attribute_in_current_context (handle_ k) attribute).

Definition ptx_version (k : kernel_t)
  : world -> noexcept_outcome compute_capability_t :=
  noexcept
    (raw_attribute <- get_attribute k CU_FUNC_ATTRIBUTE_PTX_VERSION ;;
     ret (from_combined_number P raw_attribute)).

Definition binary_compilation_target_architecture (k : kernel_t)
  : world -> noexcept_outcome compute_capability_t :=
  noexcept
    (raw_attribute <- get_attribute k CU_FUNC_ATTRIBUTE_BINARY_VERSION ;;
     ret (from_combined_number P raw_attribute)).

(** The result is converted to the unsigned [grid::block_dimension_t]. *)
Definition maximum_threads_per_block (k : kernel_t) : M Z :=
  v <- get_attribute k CU_FUNC_ATTRIBUTE_MAX_THREADS_PER_BLOCK ;;
  ret (cast_unsigned int_bits v).

(** [kernel_t::set_attribute], declared in kernel.hpp and defined in
    multi_wrapper_impls.hpp. *)
Definition set_attribute
    (k : kernel_t) (attribute : attribute_t) (value : Z) : M unit :=
  scoped_override (override_device (device_id_ k))
    (r <- native (cudaFuncSetAttribute (ptr_ k) attribute value) ;;
     throw_if_error (result_status r)
       ("Setting CUDA device function attribute " ++
        to_string (attribute_index attribute) ++
        " to value " ++ to_string value)).

Definition set_maximum_dynamic_shared_memory_per_block
    (k : kernel_t) (amount_required_by_kernel : Z) : M unit :=
  let amount_required_by_kernel_ := cast_int amount_required_by_kernel in
  if negb (amount_required_by_kernel =?
           cast_unsigned (shared_size_bits P) amount_required_by_kernel_)
  then
    throw (invalid_argument
      ("Requested amount of maximum shared memory exceeds the " ++
       "representation range for kernel attribute values"))
  else
    set_attribute k CU_FUNC_ATTRIBUTE_MAX_DYNAMIC_SHARED_SIZE_BYTES
      amount_required_by_kernel_.

(** *** multi_wrapper_impls.hpp: devices, streams, events *)

Definition default_stream (d : device_t) : stream_t :=
  {| stream_device_id_ := id_ d;
     stream_handle_ := stream.default_stream_handle;
     stream_owning := false |}.

(** Modelled from the spec: [stream::detail_::create_on_current_device] of
    stream.hpp, which is not among the sources: the driver's create call for a
    queue, its failure status thrown. *)
Definition create_on_current_device
    (will_synchronize_with_default_stream : bool) (priority : Z) : M Z :=
  r <- native (cudaStreamCreateWithPriority
                 will_synchronize_with_default_stream priority) ;;
  throw_if_error (result_status r) "Failed creating a new stream" ;;;
  ret (out1 r).

Definition create_stream (d : device_t)
    (will_synchronize_with_default_stream : bool) (priority : Z) : M stream_t :=
  scoped_override (override_device (id_ d))
    (h <- create_on_current_device will_synchronize_with_default_stream priority ;;
     ret {| stream_device_id_ := id_ d; stream_handle_ := h;
            stream_owning := true |}).

Definition kernel_device (k : kernel_t) : device_t := device.get (device_id_ k).
Definition stream_device (s : stream_t) : device_t :=
  device.get (stream_device_id_ s).
Definition event_device (e : event_t) : device_t :=
  device.get (event_device_id_ e).

(** Modelled from the spec: [event::detail_::enqueue] of event.hpp, which is
    not among the sources: the driver's record call for the event on the
    queue, its failure status thrown. *)
Definition event_enqueue (stream_handle event_handle : Z) : M unit :=
  r <- native (cudaEventRecord event_handle stream_handle) ;;
  throw_if_error (result_status r)
    ("Failed recording " ++ event_identify P event_handle).

(** [event_t::record]. *)
Definition record (e : event_t) (s : stream_t) : M unit :=
  event_enqueue (stream_handle_ s) (event_handle_ e).

Definition record_event_on_current_device
    (device_id stream_handle event_handle : Z) : M unit :=
  r <- native (cudaEventRecord event_handle stream_handle) ;;
  throw_if_error (result_status r)
    ("Failed scheduling " ++ event_identify P event_handle ++ " to occur" ++
     " on stream " ++ stream_identify P stream_handle device_id).

(** [stream_t::enqueue_t::event(event_t&)]. *)
Definition enqueue_event
    (associated_stream : stream_t) (existing_event : event_t) : M event_t :=
  let device_id := stream_device_id_ associated_stream in
  if negb (event_device_id_ existing_event =? device_id) then
    throw (invalid_argument
      ("Attempt to enqueue a CUDA event associated with " ++
       device_identify P (event_device_id_ existing_event) ++
       " to be triggered by a stream on " ++
       device_identify P device_id))
  else
    scoped_override (override_device device_id)
      (record_event_on_current_device device_id
         (stream_handle_ associated_stream) (event_handle_ existing_event) ;;;
       ret existing_event).

(** *** multi_wrapper_impls.hpp: kernel methods *)

Definition opt_in_to_extra_dynamic_memory
    (k : kernel_t) (amount_required_by_kernel : Z) : M unit :=
  scoped_override (override_device (device_id_ k))
    (if 9000 <=? CUDART_VERSION P then
       r <- native (cudaFuncSetAttribute (ptr_ k)
                      cudaFuncAttributeMaxDynamicSharedMemorySize
                      (cast_int amount_required_by_kernel)) ;;
       throw_if_error (result_status r)
         ("Trying to opt-in to " ++ to_string amount_required_by_kernel ++
          " bytes of dynamic shared memory, " ++
          "exceeding the maximum available on device " ++
          to_string (device_id_ k) ++
          " (consider the amount of static shared memory" ++
          "in use by the function).")
     else
       throw (runtime_error status.not_yet_implemented
                (describe P status.not_yet_implemented))).

(** The occupancy functions stand inside [#if defined(__CUDACC__)]: a build by
    a host-side compiler does not contain them. *)
Definition if_defined_CUDACC {A} (definition : A) : option A :=
  if defined_CUDACC P then Some definition else None.

(** [grid::complete_dimensions_t] as built from the two [int]s the query
    wrote: the unsigned grid size in blocks and the unsigned block size. *)
Definition complete_dimensions_t : Type := Z * Z.
Definition complete_dimensions (grid block : Z) : complete_dimensions_t :=
  (cast_unsigned int_bits grid, cast_unsigned int_bits block).

(** [detail_::min_grid_params_for_max_occupancy], the overload taking the
    function from block size to dynamic shared memory size. *)
Definition detail_min_grid_params_for_max_occupancy
    (ptr device_id : Z) (block_size_to_dynamic_shared_mem_size : Z -> Z)
    (block_size_limit : Z) (disable_caching_override : bool)
  : option (M complete_dimensions_t) :=
  if_defined_CUDACC
    (if CUDART_VERSION P <=? 10000 then
       throw (runtime_error status.not_yet_implemented
                (describe P status.not_yet_implemented))
     else
       r <- native (cudaOccupancyMaxPotentialBlockSizeVariableSMemWithFlags
                      ptr block_size_to_dynamic_shared_mem_size
                      (cast_int block_size_limit)
                      (if disable_caching_override
                       then cudaOccupancyDisableCachingOverride
                       else cudaOccupancyDefault)) ;;
       throw_if_error (result_status r)
         ("Failed obtaining parameters for a minimum-size grid for kernel " ++
          ptr_as_hex P ptr ++ " on device " ++ to_string device_id ++ ".") ;;;
       let min_grid_size_in_blocks := out1 r in
       let block_size := out2 r in
       ret (complete_dimensions min_grid_size_in_blocks block_size)).

(** [detail_::min_grid_params_for_max_occupancy], the overload taking a fixed
    dynamic shared memory size; it stands in the same conditional region as
    the overload it calls. *)
Definition detail_min_grid_params_for_max_occupancy_fixed
    (ptr device_id : Z) (dynamic_shared_mem_size : Z)
    (block_size_limit : Z) (disable_caching_override : bool)
  : option (M complete_dimensions_t) :=
  let always_need_same_shared_mem_size := fun _ : Z => dynamic_shared_mem_size in
  detail_min_grid_params_for_max_occupancy
    ptr device_id always_need_same_shared_mem_size
    block_size_limit disable_caching_override.

(** The free function [min_grid_params_for_max_occupancy(kernel, ...)]. *)
Definition min_grid_params_for_max_occupancy
    (kernel : kernel_t) (dynamic_shared_memory_size : Z)
    (block_size_limit : Z) (disable_caching_override : bool)
  : option (M complete_dimensions_t) :=
  detail_min_grid_params_for_max_occupancy_fixed
    (ptr_ kernel) (id_ (kernel_device kernel)) dynamic_shared_memory_size
    block_size_limit disable_caching_override.

(** [kernel_t::min_grid_params_for_max_occupancy], fixed size. *)
Definition kernel_min_grid_params_for_max_occupancy_fixed
    (k : kernel_t) (dynamic_shared_memory_size : Z)
    (block_size_limit : Z) (disable_caching_override : bool)
  : option (M complete_dimensions_t) :=
  detail_min_grid_params_for_max_occupancy_fixed
    (ptr_ k) (device_id_ k) dynamic_shared_memory_size
    block_size_limit disable_caching_override.

(** [kernel_t::min_grid_params_for_max_occupancy], size function. *)
Definition kernel_min_grid_params_for_max_occupancy
    (k : kernel_t) (block_size_to_dynamic_shared_mem_size : Z -> Z)
    (block_size_limit : Z) (disable_caching_override : bool)
  : option (M complete_dimensions_t) :=
  detail_min_grid_params_for_max_occupancy
    (ptr_ k) (device_id_ k) block_size_to_dynamic_shared_mem_size
    block_size_limit disable_caching_override.

Definition set_preferred_shared_mem_fraction
    (k : kernel_t) (shared_mem_percentage : Z) : M unit :=
  scoped_override (override_device (device_id_ k))
    (if 100 <? shared_mem_percentage then
       throw (invalid_argument "Percentage value can't exceed 100")
     else if 9000 <=? CUDART_VERSION P then
       r <- native (cudaFuncSetAttribute (ptr_ k)
                      cudaFuncAttributePreferredSharedMemoryCarveout
                      (cast_int shared_mem_percentage)) ;;
       throw_if_error (result_status r)
         "Trying to set the carve-out of shared memory/L1 cache memory"
     else
       throw (runtime_error status.not_yet_implemented
                (describe P status.not_yet_implemented))).

(** *** multi_wrapper_impls.hpp: the enqueue dispatcher *)

(** The two shapes of a launch target; which one a call has is decided where
    the call is made (the [std::is_same] test on the decayed [Kernel] type). *)
Inductive launch_target : Type :=
| wrapped_kernel (kernel : kernel_t)
| raw_kernel_function (kernel_function : Z).

(** Modelled from the spec: the raw-launch path
    [detail_::enqueue_launch(kernel_function, stream_handle, ...)] of
    kernel_launch.hpp, which is not among the sources: the parameters are
    forwarded to the driver's asynchronous launch primitive on the queue
    handle, its failure status thrown. *)
Definition raw_enqueue_launch
    (kernel_function stream_handle : Z)
    (launch_configuration : launch_configuration_t) (parameters : list Z)
  : M unit :=
  r <- native (cudaLaunchKernel kernel_function stream_handle
                 launch_configuration parameters) ;;
  throw_if_error (result_status r) "Kernel launch failed".

(** [detail_::enqueue_launch(std::true_type, ...)]: got a wrapped kernel. *)
Definition enqueue_launch_wrapped
    (kernel : kernel_t) (s : stream_t)
    (launch_configuration : launch_configuration_t) (parameters : list Z)
  : M unit :=
  if negb (device_eqb (kernel_device kernel) (stream_device s)) then
    throw (invalid_argument
      ("Attempt to enqueue a kernel for " ++
       device_identify P (id_ (kernel_device kernel)) ++
       " on a stream for " ++ "device " ++
       device_identify P (id_ (stream_device s))))
  else
    let unwrapped_kernel_function := ptr_ kernel in
    raw_enqueue_launch unwrapped_kernel_function (stream_handle_ s)
      launch_configuration parameters.

(** [detail_::enqueue_launch(std::false_type, ...)]: got a raw function. *)
Definition enqueue_launch_raw
    (kernel_function : Z) (s : stream_t)
    (launch_configuration : launch_configuration_t) (parameters : list Z)
  : M unit :=
  raw_enqueue_launch kernel_function (stream_handle_ s)
    launch_configuration parameters.

Definition enqueue_launch
    (kernel : launch_target) (s : stream_t)
    (launch_configuration : launch_configuration_t) (parameters : list Z)
  : M unit :=
  match kernel with
  | wrapped_kernel k =>
      enqueue_launch_wrapped k s launch_configuration parameters
  | raw_kernel_function f =>
      enqueue_launch_raw f s launch_configuration parameters
  end.

(** [detail_::get_implicit_device] and its specialisation for [kernel_t]. *)
Definition get_implicit_device (kernel : launch_target) : M device_t :=
  match kernel with
  | wrapped_kernel k => ret (kernel_device k)
  | raw_kernel_function _ => current_get
  end.

Definition launch
    (kernel : launch_target)
    (launch_configuration : launch_configuration_t) (parameters : list Z)
  : M unit :=
  d <- get_implicit_device kernel ;;
  let s := default_stream d in
  enqueue_launch kernel s launch_configuration parameters.

End Wrappers.

(** ** Concrete platforms and inputs, for evaluating the definitions *)

Definition succeed (v1 v2 : Z) : response :=
  {| result_status := status.success; out1 := v1; out2 := v2 |}.
Definition fail (code : status_t) : response :=
  {| result_status := code; out1 := 0; out2 := 0 |}.

(** A toolkit of revision [version] over a driver answering [answer]; the
    helpers are those of the library's other headers. *)
Definition toolkit (version : Z)
    (answer : ambient_t -> list driver_call -> driver_call -> response)
  : platform :=
  {| CUDART_VERSION := version;
     NDEBUG := false;
     defined_CUDACC := true;
     driver := answer;
     device_identify := fun id => ("device " ++ to_string id)%string;
     event_identify := fun h => ("event " ++ to_string h)%string;
     stream_identify := fun h id =>
       ("stream " ++ to_string h ++ " on device " ++ to_string id)%string;
     ptr_as_hex := to_string;
     from_combined_number := fun n => (n / 10, n mod 10);
     describe := fun s => ("CUDA error " ++ to_string s)%string;
     shared_size_bits := 32 |}.

(** A driver on which every call succeeds: 2 devices, attribute value 75,
    fresh handle 4096, occupancy answer (40, 256). *)
Definition obliging_driver
    (_ : ambient_t) (_ : list driver_call) (c : driver_call) : response :=
  match c with
  | cudaGetDeviceCount => succeed 2 0
  | cuFuncGetAttribute _ _ => succeed 75 0
  | cudaStreamCreateWithPriority _ _ => succeed 4096 0
  | cudaOccupancyMaxPotentialBlockSizeVariableSMemWithFlags _ f limit _ =>
      succeed 40 (Z.min 256 (Z.max limit (f 256)))
  | _ => succeed 0 0
  end.

(** A driver that rejects attribute reads with [cudaErrorInvalidValue] (1),
    reports no device, and accepts the rest. *)
Definition rejecting_driver
    (_ : ambient_t) (_ : list driver_call) (c : driver_call) : response :=
  match c with
  | cudaGetDeviceCount => fail status.no_device
  | cuFuncGetAttribute _ _ => fail 1
  | _ => succeed 0 0
  end.

(** The same platform, built by a host-side compiler. *)
Definition host_compiled (P : platform) : platform :=
  {| CUDART_VERSION := CUDART_VERSION P;
     NDEBUG := NDEBUG P;
     defined_CUDACC := false;
     driver := driver P;
     device_identify := device_identify P;
     event_identify := event_identify P;
     stream_identify := stream_identify P;
     ptr_as_hex := ptr_as_hex P;
     from_combined_number := from_combined_number P;
     describe := describe P;
     shared_size_bits := shared_size_bits P |}.

Definition cuda_11 : platform := toolkit 11000 obliging_driver.
Definition cuda_8 : platform := toolkit 8000 obliging_driver.
Definition cuda_11_rejecting : platform := toolkit 11000 rejecting_driver.

Definition idle_world : world :=
  {| ambient := {| current_device := 0; current_context := 100 |};
     issued := [] |}.

Definition kernel_on_device_1 : kernel_t :=
  {| device_id_ := 1; context_handle_ := 101; handle_ := 7001; ptr_ := 7001 |}.
Definition stream_on_device_0 : stream_t :=
  {| stream_device_id_ := 0; stream_handle_ := 500; stream_owning := true |}.
Definition stream_on_device_1 : stream_t :=
  {| stream_device_id_ := 1; stream_handle_ := 501; stream_owning := true |}.
Definition event_on_device_0 : event_t :=
  {| event_device_id_ := 0; event_handle_ := 900; event_owning := true |}.
Definition a_configuration : launch_configuration_t :=
  {| grid_dimensions := (4, 1, 1); block_dimensions := (256, 1, 1);
     dynamic_shared_memory_size := 0; block_cooperation := false |}.

(** ** Managed memory and device-side allocation (multi_wrapper_impls.hpp) *)

(** [cudaInvalidDeviceId] of the CUDA headers, and the size in bytes of a
    [device_t], which the [static_assert] in [accessors] equates with that of
    the [int] device id. *)
Definition cudaInvalidDeviceId : Z := -2.
Definition sizeof_device_t : Z := 4.

(** [::std::lower_bound] over the [len] elements of [a] from position [first]:
    the halving loop of the standard library, which compares with [<]; the
    fuel bounds the number of iterations, [len] of them always suffice. *)
Fixpoint lower_bound_loop (fuel : nat) (a : list Z) (first len : Z) (val : Z)
  : Z :=
  match fuel with
  | O => first
  | S fuel' =>
      if 0 <? len then
        let half := len / 2 in
        let middle := first + half in
        if nth (Z.to_nat middle) a 0 <? val
        then lower_bound_loop fuel' a (middle + 1) (len - half - 1) val
        else lower_bound_loop fuel' a first half val
      else first
  end.

Definition lower_bound (a : list Z) (n : Z) (val : Z) : Z :=
  lower_bound_loop (Z.to_nat n) a 0 n val.

(** [::std::vector::resize]: keeps the first [n] elements, and fills up with
    value-initialised ones when [n] exceeds the size. *)
Definition resize {A} (value_initialized : A) (n : Z) (v : list A) : list A :=
  firstn (Z.to_nat n) v ++
  repeat value_initialized (Z.to_nat n - List.length v)%nat.

Section ManagedMemory.

Context (P : platform).

(** The runtime's [cudaMemRangeGetAttribute] for the attribute
    [cudaMemRangeAttributeAccessedBy]: from the ambient state, the calls made
    so far, the size in bytes of the array handed over and the range, the
    status and the device ids the array holds afterwards. *)
Variable mem_range_accessed_by :
  ambient_t -> list driver_call -> Z -> Z -> Z -> status_t * list Z.

(** A value-initialised [device_t], as [resize] would append. *)
Variable value_initialized_device : device_t.

(** [memory::managed::accessors]; a region is its start address and size. *)
Definition accessors (region_start region_size : Z) : M (list device_t) :=
  num_devices <- count P ;;
  answer <- (fun w =>
               (Returned (mem_range_accessed_by (ambient w) (issued w)
                            (sizeof_device_t * num_devices)
                            region_start region_size), w)) ;;
  let status := fst answer in
  let device_ids := snd answer in
  let devices := map device.get device_ids in
  throw_if_error status
    ("Obtaining the IDs of devices with access to the managed memory range at "
     ++ ptr_as_hex P region_start) ;;;
  let first_invalid_element :=
    lower_bound device_ids num_devices cudaInvalidDeviceId in
  if negb (first_invalid_element =? num_devices)
  then ret (resize value_initialized_device first_invalid_element devices)
  else ret devices.

End ManagedMemory.

(** [memory::device::make_unique<T>(device, ...)]: the allocation
    [make_unique<T>(...)] on the current device, whose body is in headers that
    are not among the sources, runs inside a named guard. *)
Definition memory_device_make_unique {A} (d : device_t) (make_unique : M A)
  : M A :=
  scoped_override (override_device (id_ d)) make_unique.

(** [memory::managed::make_unique<T>(device, ...)]: the guard is a temporary of
    the expression statement before the allocation, so it is constructed and
    destroyed before [make_unique<T>(...)] runs. *)
Definition memory_managed_make_unique {A} (d : device_t) (make_unique : M A)
  : M A :=
  scoped_override (override_device (id_ d)) (ret tt) ;;; make_unique.

(** ** Further platforms and inputs *)

(** A driver that keeps kernel attributes: a read answers the value of the
    latest set call for that attribute among the calls made so far, 0 when
    there is none; a stream creation answers the current device as handle. *)
Definition last_value_set (a : attribute_t) (calls : list driver_call) : Z :=
  fold_left
    (fun v c =>
       match c with
       | cudaFuncSetAttribute _ a' value =>
           if attribute_index a' =? attribute_index a then value else v
       | _ => v
       end)
    calls 0.

Definition remembering_driver
    (amb : ambient_t) (calls : list driver_call) (c : driver_call) : response :=
  match c with
  | cuFuncGetAttribute a _ => succeed (last_value_set a calls) 0
  | cudaStreamCreateWithPriority _ _ => succeed (current_device amb) 0
  | cudaOccupancyMaxPotentialBlockSizeVariableSMemWithFlags _ _ _ _ =>
      succeed (current_device amb) 128
  | cudaEventRecord _ _ =>
      if current_device amb =? 1 then succeed 0 0 else fail 400
  | _ => succeed 0 0
  end.

(** A driver whose occupancy query writes -1 to both of its results. *)
Definition negative_driver
    (_ : ambient_t) (_ : list driver_call) (_ : driver_call) : response :=
  succeed (-1) (-1).

Definition cuda_11_negative : platform := toolkit 11000 negative_driver.
Definition cuda_8_host : platform := host_compiled (toolkit 8000 obliging_driver).

Definition cuda_11_remembering : platform := toolkit 11000 remembering_driver.
Definition cuda_8_remembering : platform := toolkit 8000 remembering_driver.

Definition event_on_device_1 : event_t :=
  {| event_device_id_ := 1; event_handle_ := 901; event_owning := true |}.

(** A range that devices 0 and 1 both access. *)
Definition accessed_by_both
    (_ : ambient_t) (_ : list driver_call) (_ _ _ : Z) : status_t * list Z :=
  (status.success, [0; 1]).

(** A computation that leaves the ambient state as it found it. *)
Definition preserves_ambient {A} (m : M A) : Prop :=
  forall w, ambient (snd (m w)) = ambient w.

(** ** Theorems *)

(** C10: [device::count] never returns a negative value: the no-device status
    gives 0, any other non-success status is thrown as a [cuda::runtime_error]
    carrying that status, and a negative count reported with success is thrown
    as a [std::logic_error]. *)
Theorem count_never_negative (P : platform) (w : world) :
  let r := driver P (ambient w) (issued w) cudaGetDeviceCount in
  (forall n, fst (count P w) = Returned n -> 0 <= n)
  /\ (result_status r = status.no_device -> fst (count P w) = Returned 0)
  /\ (result_status r <> status.no_device ->
      result_status r <> status.success ->
      exists what, fst (count P w) = Thrown (runtime_error (result_status r) what))
  /\ (result_status r = status.success -> out1 r < 0 ->
      exists what, fst (count P w) = Thrown (logic_error what))
  /\ (result_status r = status.success -> 0 <= out1 r ->
      fst (count P w) = Returned (out1 r)).
Proof.
  intro r.
  unfold count, bind, native, throw_if_error, is_success, ret, throw; cbn.
  fold r.
  destruct (Z.eqb_spec (result_status r) status.no_device) as [Hnd | Hnd];
    [ | destruct (Z.eqb_spec (result_status r) status.success) as [Hs | Hs];
        cbn; [ destruct (Z.ltb_spec (out1 r) 0) as [Hneg | Hpos]; cbn | ] ];
    repeat split; intros; cbn in *;
    try (rewrite Hnd in *; discriminate);
    try congruence; try lia;
    try (eexists; reflexivity);
    match goal with
    | H : Returned _ = Returned _ |- _ => injection H as <-; lia
    end.
Qed.

(** *** Arithmetic of the casts *)

Lemma cast_int_representable (z : Z) :
  INT_MIN <= z <= INT_MAX -> cast_int z = z.
Proof.
  unfold cast_int, cast_signed, INT_MIN, INT_MAX, int_bits.
  change (2 ^ (32 - 1)) with 2147483648.
  change (2 ^ 32) with 4294967296.
  intros Hz. rewrite Z.mod_small; lia.
Qed.

(** From [unsigned] to [int] and back is the identity on every [unsigned]
    value: at equal widths the round trip loses nothing. *)
Lemma round_trip_at_int_width (amount : Z) :
  0 <= amount < 2 ^ int_bits ->
  cast_unsigned int_bits (cast_int amount) = amount.
Proof.
  unfold cast_unsigned, cast_int, cast_signed, int_bits.
  change (2 ^ (32 - 1)) with 2147483648.
  change (2 ^ 32) with 4294967296.
  intros Hz.
  destruct (Z_lt_le_dec amount 2147483648) as [Hlo | Hhi].
  - rewrite (Z.mod_small (amount + 2147483648)) by lia.
    rewrite Z.mod_small; lia.
  - replace (amount + 2147483648)
      with (amount - 2147483648 + 1 * 4294967296) by lia.
    rewrite Z.mod_add by lia.
    rewrite (Z.mod_small (amount - 2147483648)) by lia.
    replace (amount - 2147483648 - 2147483648)
      with (amount + (-1) * 4294967296) by lia.
    rewrite Z.mod_add by lia.
    rewrite Z.mod_small; lia.
Qed.

(** Whatever the width of the unsigned size type, from [int]'s width up, its
    largest value is cast to -1 and back to itself, although it is far beyond
    [INT_MAX]. *)
Lemma round_trip_of_largest_value (bits : Z) :
  int_bits <= bits ->
  INT_MAX < 2 ^ bits - 1
  /\ cast_int (2 ^ bits - 1) = -1
  /\ cast_unsigned bits (cast_int (2 ^ bits - 1)) = 2 ^ bits - 1.
Proof.
  unfold int_bits. intros Hbits.
  assert (Hpow : 2 ^ bits = 2 ^ (bits - 32) * 4294967296).
  { change 4294967296 with (2 ^ 32). rewrite <- Z.pow_add_r by lia.
    f_equal. lia. }
  assert (Hpos : 0 < 2 ^ (bits - 32)) by (apply Z.pow_pos_nonneg; lia).
  assert (Hcast : cast_int (2 ^ bits - 1) = -1).
  { unfold cast_int, cast_signed, int_bits.
    change (2 ^ (32 - 1)) with 2147483648.
    change (2 ^ 32) with 4294967296.
    rewrite Hpow.
    replace (2 ^ (bits - 32) * 4294967296 - 1 + 2147483648)
      with (2147483647 + 2 ^ (bits - 32) * 4294967296) by lia.
    rewrite Z.mod_add by lia.
    rewrite Z.mod_small; lia. }
  repeat split.
  - unfold INT_MAX, int_bits. change (2 ^ (32 - 1)) with 2147483648. nia.
  - exact Hcast.
  - rewrite Hcast. unfold cast_unsigned.
    replace (-1) with (2 ^ bits - 1 + (-1) * 2 ^ bits) by lia.
    rewrite Z.mod_add by lia.
    rewrite Z.mod_small; lia.
Qed.

(** *** The monad and the guards *)

Lemma set_current_slot_value (t : override_target) (a : ambient_t) :
  set_current (slot_value t a) (set_current t a) = a.
Proof. destruct t, a; reflexivity. Qed.

Lemma ret_preserves_ambient {A} (a : A) : preserves_ambient (ret a).
Proof. intro w. reflexivity. Qed.

Lemma throw_preserves_ambient {A} (e : exception) :
  preserves_ambient (@throw A e).
Proof. intro w. reflexivity. Qed.

Lemma native_preserves_ambient (P : platform) (c : driver_call) :
  preserves_ambient (native P c).
Proof. intro w. reflexivity. Qed.

Lemma throw_if_error_preserves_ambient (s : status_t) (what : string) :
  preserves_ambient (throw_if_error s what).
Proof. intro w. unfold throw_if_error. destruct (is_success s); reflexivity. Qed.

Lemma bind_preserves_ambient {A B} (m : M A) (k : A -> M B) :
  preserves_ambient m -> (forall a, preserves_ambient (k a)) ->
  preserves_ambient (bind m k).
Proof.
  intros Hm Hk w. unfold bind.
  specialize (Hm w). destruct (m w) as [[a | e] w']; cbn in *.
  - rewrite Hk. exact Hm.
  - exact Hm.
Qed.

Lemma catch_preserves_ambient {A} (body handler : M A) :
  preserves_ambient body -> preserves_ambient handler ->
  preserves_ambient (catch body handler).
Proof.
  intros Hb Hh w. unfold catch.
  specialize (Hb w). destruct (body w) as [[a | e] w']; cbn in *.
  - exact Hb.
  - rewrite Hh. exact Hb.
Qed.

(** The guard puts back the slot it replaced, whatever its body did. *)
Lemma scoped_override_restores_slot {A} (t : override_target) (body : M A)
    (w : world) :
  slot_value t (ambient (snd (scoped_override t body w))) =
  slot_value t (ambient w).
Proof.
  unfold scoped_override.
  destruct (body _) as [o w']; cbn.
  destruct t; reflexivity.
Qed.

(** The guard passes its body's outcome on unchanged, failure included. *)
Lemma scoped_override_outcome {A} (t : override_target) (body : M A)
    (w : world) :
  fst (scoped_override t body w) =
  fst (body (with_ambient (set_current t (ambient w)) w)).
Proof.
  unfold scoped_override. destruct (body _) as [o w']. reflexivity.
Qed.

Lemma scoped_override_issued {A} (t : override_target) (body : M A)
    (w : world) :
  issued (snd (scoped_override t body w)) =
  issued (snd (body (with_ambient (set_current t (ambient w)) w))).
Proof.
  unfold scoped_override. destruct (body _) as [o w']. reflexivity.
Qed.

Lemma scoped_override_preserves_ambient {A} (t : override_target)
    (body : M A) :
  preserves_ambient body -> preserves_ambient (scoped_override t body).
Proof.
  intros Hb w. unfold scoped_override.
  specialize (Hb (with_ambient (set_current t (ambient w)) w)).
  destruct (body _) as [o w']; cbn in *.
  rewrite Hb. apply set_current_slot_value.
Qed.

Lemma run_preserves_ambient (P : platform) (b : block) :
  preserves_ambient (run P b).
Proof.
  induction b as [c | e | b1 IH1 b2 IH2 | b IHb h IHh | t b IHb]; cbn [run].
  - apply bind_preserves_ambient.
    + apply native_preserves_ambient.
    + intro r. apply throw_if_error_preserves_ambient.
  - apply throw_preserves_ambient.
  - apply bind_preserves_ambient; [exact IH1 | intros _; exact IH2].
  - apply catch_preserves_ambient; assumption.
  - apply scoped_override_preserves_ambient. exact IHb.
Qed.

Lemma get_attribute_preserves_ambient (P : platform) (k : kernel_t)
    (attribute : attribute_t) :
  preserves_ambient (get_attribute P k attribute).
Proof.
  apply scoped_override_preserves_ambient.
  apply bind_preserves_ambient; [apply native_preserves_ambient | intro r].
  apply bind_preserves_ambient;
    [apply throw_if_error_preserves_ambient | intros _; apply ret_preserves_ambient].
Qed.

Lemma create_stream_preserves_ambient (P : platform) (d : device_t)
    (will_synchronize_with_default_stream : bool) (priority : Z) :
  preserves_ambient
    (create_stream P d will_synchronize_with_default_stream priority).
Proof.
  apply scoped_override_preserves_ambient.
  apply bind_preserves_ambient; [ | intro h; apply ret_preserves_ambient].
  apply bind_preserves_ambient; [apply native_preserves_ambient | intro r].
  apply bind_preserves_ambient;
    [apply throw_if_error_preserves_ambient | intros _; apply ret_preserves_ambient].
Qed.

(** The other guarded operations of the sources restore the ambient state as
    well, on their failing paths too. *)
Lemma guarded_operations_preserve_ambient (P : platform) (k : kernel_t) :
  (forall attribute value, preserves_ambient (set_attribute P k attribute value))
  /\ (forall amount, preserves_ambient (opt_in_to_extra_dynamic_memory P k amount))
  /\ (forall percentage,
        preserves_ambient (set_preferred_shared_mem_fraction P k percentage))
  /\ (forall s e, preserves_ambient (enqueue_event P s e)).
Proof.
  repeat split; intros.
  - apply scoped_override_preserves_ambient.
    apply bind_preserves_ambient; [apply native_preserves_ambient | intro r].
    apply throw_if_error_preserves_ambient.
  - apply scoped_override_preserves_ambient.
    destruct (9000 <=? CUDART_VERSION P); [ | apply throw_preserves_ambient].
    apply bind_preserves_ambient; [apply native_preserves_ambient | intro r].
    apply throw_if_error_preserves_ambient.
  - apply scoped_override_preserves_ambient.
    destruct (100 <? percentage); [apply throw_preserves_ambient | ].
    destruct (9000 <=? CUDART_VERSION P); [ | apply throw_preserves_ambient].
    apply bind_preserves_ambient; [apply native_preserves_ambient | intro r].
    apply throw_if_error_preserves_ambient.
  - unfold enqueue_event.
    destruct (negb _); [apply throw_preserves_ambient | ].
    apply scoped_override_preserves_ambient.
    apply bind_preserves_ambient; [ | intros _; apply ret_preserves_ambient].
    apply bind_preserves_ambient; [apply native_preserves_ambient | intro r].
    apply throw_if_error_preserves_ambient.
Qed.

(** The native call of [get_attribute] is made while the kernel's own context
    is the current one. *)
Lemma get_attribute_asks_in_kernel_context (P : platform) (k : kernel_t)
    (attribute : attribute_t) (w : world) :
  let r := driver P (set_current (override_context (context_handle_ k)) (ambient w))
             (issued w) (cuFuncGetAttribute attribute (handle_ k)) in
  fst (get_attribute P k attribute w) =
    (if is_success (result_status r) then Returned (out1 r)
     else Thrown (runtime_error (result_status r)
            ("Failed obtaining attribute " ++
             (if NDEBUG P then to_string (attribute_index attribute)
              else attribute_name attribute))))
  /\ issued (snd (get_attribute P k attribute w)) =
       issued w ++ [cuFuncGetAttribute attribute (handle_ k)].
Proof.
  intro r. subst r.
  unfold get_attribute, scoped_override, get_attribute_in_current_context,
    bind, native, throw_if_error, ret, throw; cbn.
  destruct (is_success _); cbn; split; reflexivity.
Qed.

(** A guarded block three guards deep whose innermost block fails: the failure
    reaches the caller and the ambient state is the one before the block. *)
Example nested_guards_unwind :
  run cuda_11_rejecting
    (do_scoped (override_device 1)
       (do_scoped (override_context 101)
          (do_seq (do_native (cudaFuncSetAttribute 7001 cudaFuncAttributePreferredSharedMemoryCarveout 50))
             (do_scoped (override_device 2)
                (do_native (cuFuncGetAttribute CU_FUNC_ATTRIBUTE_NUM_REGS 7001))))))
    idle_world
  = (Thrown (runtime_error 1 "CUDA error 1"),
     {| ambient := ambient idle_world;
        issued := [cudaFuncSetAttribute 7001 cudaFuncAttributePreferredSharedMemoryCarveout 50;
                   cuFuncGetAttribute CU_FUNC_ATTRIBUTE_NUM_REGS 7001] |}).
Proof. vm_compute. reflexivity. Qed.

(** C1: every block of client code, with guards nested to any depth and with
    failures raised anywhere inside, leaves the ambient current device and
    context as it found them; each single guard puts back exactly the value of
    the slot it replaced whatever its body did; so do the two guarded
    operations of the sources, [kernel_t::get_attribute] and
    [device_t::create_stream]. *)
Theorem scoped_override_restores_ambient (P : platform) :
  (forall (b : block) (w : world), ambient (snd (run P b w)) = ambient w)
  /\ (forall (A : Type) (t : override_target) (body : M A) (w : world),
        slot_value t (ambient (snd (scoped_override t body w))) =
        slot_value t (ambient w))
  /\ (forall (k : kernel_t) (attribute : attribute_t) (w : world),
        ambient (snd (get_attribute P k attribute w)) = ambient w)
  /\ (forall (d : device_t) (synchronizes : bool) (priority : Z) (w : world),
        ambient (snd (create_stream P d synchronizes priority w)) = ambient w).
Proof.
  repeat split.
  - intros b w. apply run_preserves_ambient.
  - intros A t body w. apply scoped_override_restores_slot.
  - intros k attribute w. apply get_attribute_preserves_ambient.
  - intros d synchronizes priority w. apply create_stream_preserves_ambient.
Qed.

(** *** The enqueue dispatcher *)


(** C2: a wrapped kernel enqueued on a stream of another device is rejected
    with [std::invalid_argument], the message naming both devices, and the
    world is left as it was, so no native call (the launch call in particular)
    has been made; when the device ids agree, the call is exactly the
    raw-launch path on the kernel's function pointer and the stream's handle. *)
Theorem enqueue_launch_checks_device (P : platform) (kernel : kernel_t)
    (s : stream_t) (cfg : launch_configuration_t) (parameters : list Z)
    (w : world) :
  (device_id_ kernel <> stream_device_id_ s ->
     enqueue_launch P (wrapped_kernel kernel) s cfg parameters w =
       (Thrown (invalid_argument
          ("Attempt to enqueue a kernel for " ++
           device_identify P (device_id_ kernel) ++
           " on a stream for " ++ "device " ++
           device_identify P (stream_device_id_ s))), w))
  /\ (device_id_ kernel = stream_device_id_ s ->
     enqueue_launch P (wrapped_kernel kernel) s cfg parameters w =
       raw_enqueue_launch P (ptr_ kernel) (stream_handle_ s) cfg parameters w).
Proof.
  unfold enqueue_launch, enqueue_launch_wrapped, device_eqb, kernel_device,
    stream_device, device.get; cbn [id_].
  destruct (Z.eqb_spec (device_id_ kernel) (stream_device_id_ s)) as [He | Hne];
    cbn [negb]; split; intro H; try contradiction; reflexivity.
Qed.

Lemma enqueue_launch_checks_device_witness :
  enqueue_launch cuda_11 (wrapped_kernel kernel_on_device_1) stream_on_device_0
    a_configuration [3; 4] idle_world =
  (Thrown (invalid_argument
     "Attempt to enqueue a kernel for device 1 on a stream for device device 0"),
   idle_world)
  /\ enqueue_launch cuda_11 (wrapped_kernel kernel_on_device_1)
       stream_on_device_1 a_configuration [3; 4] idle_world =
     raw_enqueue_launch cuda_11 7001 501 a_configuration [3; 4] idle_world.
Proof.
  split.
  - apply (proj1 (enqueue_launch_checks_device cuda_11 kernel_on_device_1
                    stream_on_device_0 a_configuration [3; 4] idle_world)).
    cbn. lia.
  - apply (proj2 (enqueue_launch_checks_device cuda_11 kernel_on_device_1
                    stream_on_device_1 a_configuration [3; 4] idle_world)).
    reflexivity.
Defined.

(** On its own device's default stream a wrapped kernel always passes the
    device check: [launch] goes straight to the raw-launch path. *)
Lemma launch_wrapped_reaches_driver (P : platform) (k : kernel_t)
    (cfg : launch_configuration_t) (parameters : list Z) (w : world) :
  launch P (wrapped_kernel k) cfg parameters w =
  raw_enqueue_launch P (ptr_ k) stream.default_stream_handle cfg parameters w.
Proof.
  unfold launch, get_implicit_device, bind, ret, enqueue_launch,
    enqueue_launch_wrapped, device_eqb, kernel_device, stream_device,
    default_stream, device.get; cbn.
  rewrite Z.eqb_refl. reflexivity.
Qed.


(** *** Events *)

(** [stream_t::enqueue_t::event] does check the devices before anything else. *)
Lemma enqueue_event_rejects_device_mismatch (P : platform) (s : stream_t)
    (e : event_t) (w : world) :
  event_device_id_ e <> stream_device_id_ s ->
  enqueue_event P s e w =
    (Thrown (invalid_argument
       ("Attempt to enqueue a CUDA event associated with " ++
        device_identify P (event_device_id_ e) ++
        " to be triggered by a stream on " ++
        device_identify P (stream_device_id_ s))), w).
Proof.
  intro Hne. unfold enqueue_event.
  destruct (Z.eqb_spec (event_device_id_ e) (stream_device_id_ s));
    [contradiction | reflexivity].
Qed.

(** [event_t::record] never looks at a device id: it issues the driver's
    record call whatever the devices of the event and of the stream are. *)
Lemma record_issues_driver_call (P : platform) (e : event_t) (s : stream_t)
    (w : world) :
  issued (snd (record P e s w)) =
  issued w ++ [cudaEventRecord (event_handle_ e) (stream_handle_ s)].
Proof.
  unfold record, event_enqueue, bind, native, throw_if_error, ret, throw; cbn.
  destruct (is_success _); reflexivity.
Qed.

(** C4, at an event of device 0 and a stream of device 1: [event_t::record]
    does not reject the pair; it issues the driver's record call and returns,
    while [stream_t::enqueue_t::event] rejects the same pair untouched. *)
Theorem event_record_skips_device_check :
  event_device_id_ event_on_device_0 <> stream_device_id_ stream_on_device_1
  /\ record cuda_11 event_on_device_0 stream_on_device_1 idle_world =
       (Returned tt,
        {| ambient := ambient idle_world;
           issued := [cudaEventRecord 900 501] |})
  /\ enqueue_event cuda_11 stream_on_device_1 event_on_device_0 idle_world =
       (Thrown (invalid_argument
          "Attempt to enqueue a CUDA event associated with device 0 to be triggered by a stream on device 1"),
        idle_world).
Proof. repeat split; [ cbn; lia | vm_compute; reflexivity .. ]. Qed.

(** *** Version-gated operations *)

(** C3, as stated, fails on a toolkit older than 9000: the percentage 50 is
    within 0..100, yet no attribute-set call is issued; the operation fails
    with the not-yet-implemented status. *)
Lemma shared_mem_fraction_not_set_before_toolkit_9000 :
  0 <= 50 <= 100
  /\ ~ In (cudaFuncSetAttribute (ptr_ kernel_on_device_1)
             cudaFuncAttributePreferredSharedMemoryCarveout 50)
          (issued (snd (set_preferred_shared_mem_fraction cuda_8
                          kernel_on_device_1 50 idle_world)))
  /\ set_preferred_shared_mem_fraction cuda_8 kernel_on_device_1 50 idle_world =
       (Thrown (runtime_error status.not_yet_implemented "CUDA error 31"),
        idle_world).
Proof.
  split; [lia | split].
  - vm_compute. intros [].
  - vm_compute. reflexivity.
Qed.

(** C3, amended: a percentage above 100 is rejected with
    [std::invalid_argument] and no native call is issued; a percentage from 0
    to 100 makes the driver's attribute-set call, with that percentage, when
    the toolkit revision is at least 9000; on an older toolkit it fails with
    the not-yet-implemented status and no native call is issued. *)
Theorem set_preferred_shared_mem_fraction_validates (P : platform)
    (k : kernel_t) (shared_mem_percentage : Z) (w : world) :
  let r := set_preferred_shared_mem_fraction P k shared_mem_percentage w in
  (100 < shared_mem_percentage ->
     fst r = Thrown (invalid_argument "Percentage value can't exceed 100")
     /\ issued (snd r) = issued w)
  /\ (0 <= shared_mem_percentage <= 100 -> 9000 <= CUDART_VERSION P ->
     issued (snd r) =
       issued w ++ [cudaFuncSetAttribute (ptr_ k)
                      cudaFuncAttributePreferredSharedMemoryCarveout
                      shared_mem_percentage])
  /\ (0 <= shared_mem_percentage <= 100 -> CUDART_VERSION P < 9000 ->
     fst r = Thrown (runtime_error status.not_yet_implemented
                       (describe P status.not_yet_implemented))
     /\ issued (snd r) = issued w).
Proof.
  cbv zeta. unfold set_preferred_shared_mem_fraction.
  rewrite scoped_override_outcome, scoped_override_issued.
  destruct (Z.ltb_spec 100 shared_mem_percentage) as [Hhi | Hlo];
    [ | destruct (Z.leb_spec 9000 (CUDART_VERSION P)) as [Hnew | Hold] ];
    repeat split; intros; try lia; try reflexivity.
  unfold bind, native, throw_if_error, ret, throw; cbn.
  rewrite cast_int_representable
    by (unfold INT_MIN, INT_MAX, int_bits; cbn; lia).
  destruct (is_success _); reflexivity.
Qed.

Lemma set_preferred_shared_mem_fraction_validates_witness :
  (fst (set_preferred_shared_mem_fraction cuda_11 kernel_on_device_1 101
          idle_world) =
     Thrown (invalid_argument "Percentage value can't exceed 100")
   /\ issued (snd (set_preferred_shared_mem_fraction cuda_11
                     kernel_on_device_1 101 idle_world)) = [])
  /\ issued (snd (set_preferred_shared_mem_fraction cuda_11
                    kernel_on_device_1 100 idle_world)) =
       [cudaFuncSetAttribute 7001
          cudaFuncAttributePreferredSharedMemoryCarveout 100]
  /\ fst (set_preferred_shared_mem_fraction cuda_8 kernel_on_device_1 0
            idle_world) =
       Thrown (runtime_error status.not_yet_implemented "CUDA error 31").
Proof.
  split; [ | split ].
  - apply (proj1 (set_preferred_shared_mem_fraction_validates cuda_11
                    kernel_on_device_1 101 idle_world)).
    lia.
  - apply (proj1 (proj2 (set_preferred_shared_mem_fraction_validates cuda_11
                           kernel_on_device_1 100 idle_world))).
    + lia.
    + cbn. lia.
  - apply (proj2 (proj2 (set_preferred_shared_mem_fraction_validates cuda_8
                           kernel_on_device_1 0 idle_world))).
    + lia.
    + cbn. lia.
Defined.

(** *** Occupancy *)

(** C5: with a fixed dynamic shared-memory size [s], the grid parameters for
    maximum occupancy are those obtained with any function of the block size
    that returns [s] everywhere: outcome (the pair, or the failure) and world
    are the same, through [detail_] and through the [kernel_t] methods. *)
Theorem min_grid_params_fixed_size_is_constant_function (P : platform)
    (k : kernel_t) (ptr device_id : Z) (s : Z) (f : Z -> Z)
    (block_size_limit : Z) (disable_caching_override : bool) (w : world) :
  (forall block_size, f block_size = s) ->
  invoke (detail_min_grid_params_for_max_occupancy_fixed P ptr device_id s
            block_size_limit disable_caching_override) w =
  invoke (detail_min_grid_params_for_max_occupancy P ptr device_id f
            block_size_limit disable_caching_override) w
  /\ invoke (kernel_min_grid_params_for_max_occupancy_fixed P k s
               block_size_limit disable_caching_override) w =
     invoke (kernel_min_grid_params_for_max_occupancy P k f
               block_size_limit disable_caching_override) w
  /\ invoke (min_grid_params_for_max_occupancy P k s
               block_size_limit disable_caching_override) w =
     invoke (kernel_min_grid_params_for_max_occupancy P k f
               block_size_limit disable_caching_override) w.
Proof.
  intro Hf.
  assert (Heq : f = fun _ : Z => s)
    by (apply functional_extensionality; exact Hf).
  subst f. repeat split; reflexivity.
Qed.

Lemma min_grid_params_fixed_size_is_constant_function_witness :
  invoke (detail_min_grid_params_for_max_occupancy_fixed cuda_11 7001 1 1024
            512 false) idle_world =
    Some (Returned (40, 256),
          {| ambient := ambient idle_world;
             issued := [cudaOccupancyMaxPotentialBlockSizeVariableSMemWithFlags
                          7001 (fun _ => 1024) 512 cudaOccupancyDefault] |})
  /\ option_map fst
       (invoke (detail_min_grid_params_for_max_occupancy cuda_11 7001 1
                  (fun block_size => 1024 + 0 * block_size) 512 false)
               idle_world) =
     Some (Returned (40, 256)).
Proof.
  split.
  - vm_compute. reflexivity.
  - rewrite <- (proj1 (min_grid_params_fixed_size_is_constant_function cuda_11
                         kernel_on_device_1 7001 1 1024
                         (fun block_size => 1024 + 0 * block_size)
                         512 false idle_world
                         (fun block_size => eq_refl))).
    vm_compute. reflexivity.
Defined.

(** C6, as stated, fails in a build by a host-side compiler: on a toolkit of
    revision 8000, which is gated out of the occupancy query, the occupancy
    operations are not there at all, so a call of them is no
    not-yet-implemented failure: it does not compile. *)
Lemma occupancy_query_absent_in_host_build :
  CUDART_VERSION cuda_8_host <= 10000
  /\ invoke (detail_min_grid_params_for_max_occupancy cuda_8_host 7001 1
               (fun _ => 1024) 512 false) idle_world = None
  /\ invoke (kernel_min_grid_params_for_max_occupancy_fixed cuda_8_host
               kernel_on_device_1 1024 512 false) idle_world = None
  /\ invoke (detail_min_grid_params_for_max_occupancy cuda_8_host 7001 1
               (fun _ => 1024) 512 false) idle_world <>
     Some (Thrown (runtime_error status.not_yet_implemented
                     (describe cuda_8_host status.not_yet_implemented)),
           idle_world).
Proof.
  repeat split; try (vm_compute; reflexivity); vm_compute; congruence.
Qed.

(** C6, amended: in a build by the CUDA compiler ([__CUDACC__] defined), on a
    toolkit whose revision is gated out of the occupancy query (up to 10000),
    the query is there, in both overloads, and fails with the
    not-yet-implemented status as a thrown [cuda::runtime_error], having
    issued no native call; in a build by a host-side compiler the occupancy
    functions are absent; the dynamic shared memory opt-in, in every build,
    fails in the same way below revision 9000. *)
Theorem gated_operations_throw_not_yet_implemented (P : platform) :
  (defined_CUDACC P = true -> CUDART_VERSION P <= 10000 ->
     forall ptr device_id f block_size_limit disable_caching_override w,
       invoke (detail_min_grid_params_for_max_occupancy P ptr device_id f
                 block_size_limit disable_caching_override) w =
       Some (Thrown (runtime_error status.not_yet_implemented
                       (describe P status.not_yet_implemented)), w))
  /\ (defined_CUDACC P = true -> CUDART_VERSION P <= 10000 ->
     forall ptr device_id s block_size_limit disable_caching_override w,
       invoke (detail_min_grid_params_for_max_occupancy_fixed P ptr device_id
                 s block_size_limit disable_caching_override) w =
       Some (Thrown (runtime_error status.not_yet_implemented
                       (describe P status.not_yet_implemented)), w))
  /\ (defined_CUDACC P = false ->
     forall ptr device_id f s block_size_limit disable_caching_override,
       detail_min_grid_params_for_max_occupancy P ptr device_id f
         block_size_limit disable_caching_override = None
       /\ detail_min_grid_params_for_max_occupancy_fixed P ptr device_id s
            block_size_limit disable_caching_override = None)
  /\ (CUDART_VERSION P < 9000 ->
     forall k amount w,
       fst (opt_in_to_extra_dynamic_memory P k amount w) =
         Thrown (runtime_error status.not_yet_implemented
                   (describe P status.not_yet_implemented))
       /\ issued (snd (opt_in_to_extra_dynamic_memory P k amount w)) = issued w
       /\ ambient (snd (opt_in_to_extra_dynamic_memory P k amount w)) = ambient w).
Proof.
  split; [ | split; [ | split ] ].
  - intros Hcc Hv ptr device_id f limit dco w.
    unfold detail_min_grid_params_for_max_occupancy, if_defined_CUDACC.
    rewrite Hcc. cbn [invoke].
    destruct (Z.leb_spec (CUDART_VERSION P) 10000); [reflexivity | lia].
  - intros Hcc Hv ptr device_id s limit dco w.
    unfold detail_min_grid_params_for_max_occupancy_fixed,
      detail_min_grid_params_for_max_occupancy, if_defined_CUDACC.
    rewrite Hcc. cbn [invoke].
    destruct (Z.leb_spec (CUDART_VERSION P) 10000); [reflexivity | lia].
  - intros Hcc ptr device_id f s limit dco.
    unfold detail_min_grid_params_for_max_occupancy_fixed,
      detail_min_grid_params_for_max_occupancy, if_defined_CUDACC.
    rewrite Hcc. split; reflexivity.
  - intros Hv k amount w. repeat split.
    + unfold opt_in_to_extra_dynamic_memory. rewrite scoped_override_outcome.
      destruct (Z.leb_spec 9000 (CUDART_VERSION P)); [lia | reflexivity].
    + unfold opt_in_to_extra_dynamic_memory. rewrite scoped_override_issued.
      destruct (Z.leb_spec 9000 (CUDART_VERSION P)); [lia | reflexivity].
    + unfold opt_in_to_extra_dynamic_memory.
      apply scoped_override_preserves_ambient.
      destruct (Z.leb_spec 9000 (CUDART_VERSION P)); [lia | ].
      apply throw_preserves_ambient.
Qed.

Lemma gated_operations_throw_not_yet_implemented_witness :
  invoke (detail_min_grid_params_for_max_occupancy cuda_8 7001 1
            (fun _ => 1024) 512 false) idle_world =
    Some (Thrown (runtime_error status.not_yet_implemented "CUDA error 31"),
          idle_world)
  /\ invoke (detail_min_grid_params_for_max_occupancy_fixed cuda_8 7001 1 1024
               512 false) idle_world =
     Some (Thrown (runtime_error status.not_yet_implemented "CUDA error 31"),
           idle_world)
  /\ detail_min_grid_params_for_max_occupancy cuda_8_host 7001 1
       (fun _ => 1024) 512 false = None
  /\ fst (opt_in_to_extra_dynamic_memory cuda_8 kernel_on_device_1 65536
            idle_world) =
     Thrown (runtime_error status.not_yet_implemented "CUDA error 31").
Proof.
  split; [ | split; [ | split ] ].
  - apply (proj1 (gated_operations_throw_not_yet_implemented cuda_8)).
    + reflexivity.
    + cbn. lia.
  - apply (proj1 (proj2 (gated_operations_throw_not_yet_implemented cuda_8))).
    + reflexivity.
    + cbn. lia.
  - apply (proj1 (proj1 (proj2 (proj2
             (gated_operations_throw_not_yet_implemented cuda_8_host)))
             eq_refl 7001 1 (fun _ => 1024) 1024 512 false)).
  - apply (proj2 (proj2 (proj2
             (gated_operations_throw_not_yet_implemented cuda_8)))).
    cbn. lia.
Defined.

(** In a build by the CUDA compiler, on a toolkit past the gate, the occupancy
    query does reach the driver. *)
Lemma min_grid_params_reaches_driver (P : platform) (ptr device_id : Z)
    (f : Z -> Z) (block_size_limit : Z) (disable_caching_override : bool)
    (w : world) :
  defined_CUDACC P = true ->
  10000 < CUDART_VERSION P ->
  option_map (fun r => issued (snd r))
    (invoke (detail_min_grid_params_for_max_occupancy P ptr device_id f
               block_size_limit disable_caching_override) w) =
  Some (issued w ++
    [cudaOccupancyMaxPotentialBlockSizeVariableSMemWithFlags ptr f
       (cast_int block_size_limit)
       (if disable_caching_override then cudaOccupancyDisableCachingOverride
        else cudaOccupancyDefault)]).
Proof.
  intros Hcc Hv.
  unfold detail_min_grid_params_for_max_occupancy, if_defined_CUDACC.
  rewrite Hcc. cbn [invoke option_map].
  destruct (Z.leb_spec (CUDART_VERSION P) 10000); [lia | ].
  unfold bind, native, throw_if_error, ret, throw; cbn.
  destruct (is_success _); reflexivity.
Qed.

(** *** The dynamic shared memory attribute *)

(** What [set_maximum_dynamic_shared_memory_per_block] tests is the round trip
    through [int]: it throws when the amount does not come back, and calls
    [set_attribute] with the converted value when it does. *)
Lemma set_maximum_dynamic_shared_memory_round_trip (P : platform)
    (k : kernel_t) (amount : Z) (w : world) :
  (cast_unsigned (shared_size_bits P) (cast_int amount) <> amount ->
     exists what,
       set_maximum_dynamic_shared_memory_per_block P k amount w =
       (Thrown (invalid_argument what), w))
  /\ (cast_unsigned (shared_size_bits P) (cast_int amount) = amount ->
     set_maximum_dynamic_shared_memory_per_block P k amount w =
     set_attribute P k CU_FUNC_ATTRIBUTE_MAX_DYNAMIC_SHARED_SIZE_BYTES
       (cast_int amount) w).
Proof.
  unfold set_maximum_dynamic_shared_memory_per_block.
  destruct (Z.eqb_spec amount
              (cast_unsigned (shared_size_bits P) (cast_int amount)))
    as [He | Hne]; cbn [negb]; split; intro H;
    try congruence; try reflexivity.
  eexists. reflexivity.
Qed.

(** With [memory::shared::size_t] as wide as [int], the test never fires: every
    amount, representable in [int] or not, is handed to the driver. *)
Lemma set_maximum_dynamic_shared_memory_never_rejects (P : platform)
    (k : kernel_t) (amount : Z) (w : world) :
  shared_size_bits P = int_bits ->
  0 <= amount < 2 ^ int_bits ->
  issued (snd (set_maximum_dynamic_shared_memory_per_block P k amount w)) =
  issued w ++ [cudaFuncSetAttribute (ptr_ k)
                 CU_FUNC_ATTRIBUTE_MAX_DYNAMIC_SHARED_SIZE_BYTES
                 (cast_int amount)].
Proof.
  intros Hbits Hrange.
  rewrite (proj2 (set_maximum_dynamic_shared_memory_round_trip P k amount w))
    by (rewrite Hbits; apply round_trip_at_int_width; exact Hrange).
  unfold set_attribute. rewrite scoped_override_issued.
  unfold bind, native, throw_if_error, ret, throw; cbn.
  destruct (is_success _); reflexivity.
Qed.

(** C7, at the amount 2147483648 (2 GiB, a value of the 32-bit unsigned
    [memory::shared::size_t] above [INT_MAX]): the amount is not representable
    as an attribute value, yet nothing is thrown and the driver's
    attribute-set call is issued with the value -2147483648. *)
Theorem set_maximum_dynamic_shared_memory_accepts_unrepresentable :
  0 <= 2147483648 < 2 ^ shared_size_bits cuda_11
  /\ INT_MAX < 2147483648
  /\ set_maximum_dynamic_shared_memory_per_block cuda_11 kernel_on_device_1
       2147483648 idle_world =
     (Returned tt,
      {| ambient := ambient idle_world;
         issued := [cudaFuncSetAttribute 7001
                      CU_FUNC_ATTRIBUTE_MAX_DYNAMIC_SHARED_SIZE_BYTES
                      (-2147483648)] |}).
Proof.
  repeat split; try (vm_compute; reflexivity); vm_compute; congruence.
Qed.

(** *** Failures of attribute reads *)

(** [get_attribute] itself hands a driver failure to its caller. *)
Lemma get_attribute_propagates (P : platform) (k : kernel_t)
    (attribute : attribute_t) (w : world) :
  let r := driver P (set_current (override_context (context_handle_ k)) (ambient w))
             (issued w) (cuFuncGetAttribute attribute (handle_ k)) in
  result_status r <> status.success ->
  exists what,
    fst (get_attribute P k attribute w) =
    Thrown (runtime_error (result_status r) what).
Proof.
  intros r Hfail.
  destruct (get_attribute_asks_in_kernel_context P k attribute w) as [Hout _].
  cbv zeta in Hout. fold r in Hout. rewrite Hout.
  unfold is_success. destruct (Z.eqb_spec (result_status r) status.success);
    [contradiction | eexists; reflexivity].
Qed.

(** The two [noexcept] readers end the program on any driver failure. *)
Lemma ptx_version_terminates (P : platform) (k : kernel_t) (w : world) :
  result_status
    (driver P (set_current (override_context (context_handle_ k)) (ambient w))
       (issued w) (cuFuncGetAttribute CU_FUNC_ATTRIBUTE_PTX_VERSION (handle_ k)))
    <> status.success ->
  ptx_version P k w = std_terminate.
Proof.
  intro Hfail.
  destruct (get_attribute_propagates P k CU_FUNC_ATTRIBUTE_PTX_VERSION w Hfail)
    as [what Hthrown].
  unfold ptx_version, noexcept, bind.
  destruct (get_attribute P k CU_FUNC_ATTRIBUTE_PTX_VERSION w) as [o w'].
  cbn in Hthrown. subst o. reflexivity.
Qed.

(** C9, at a kernel whose attribute reads the driver rejects with status 1:
    [get_attribute] throws the typed failure, but [ptx_version] and
    [binary_compilation_target_architecture], being [noexcept], do not let it
    reach their caller: the program is terminated.  The sibling reader
    [maximum_threads_per_block] does propagate it. *)
Theorem noexcept_readers_terminate_on_driver_failure :
  fst (get_attribute cuda_11_rejecting kernel_on_device_1
         CU_FUNC_ATTRIBUTE_PTX_VERSION idle_world) =
    Thrown (runtime_error 1
      "Failed obtaining attribute PTX virtual architecture version into which the kernel code was compiled")
  /\ ptx_version cuda_11_rejecting kernel_on_device_1 idle_world = std_terminate
  /\ binary_compilation_target_architecture cuda_11_rejecting
       kernel_on_device_1 idle_world = std_terminate
  /\ fst (maximum_threads_per_block cuda_11_rejecting kernel_on_device_1
            idle_world) =
     Thrown (runtime_error 1
       "Failed obtaining attribute Maximum number of threads per block").
Proof. repeat split; vm_compute; reflexivity. Qed.

(** *** Counting devices *)

Lemma count_never_negative_witness :
  fst (count cuda_11_rejecting idle_world) = Returned 0
  /\ fst (count cuda_11 idle_world) = Returned 2.
Proof.
  split.
  - apply (proj1 (proj2 (count_never_negative cuda_11_rejecting idle_world))).
    reflexivity.
  - apply (proj2 (proj2 (proj2 (proj2
             (count_never_negative cuda_11 idle_world))))).
    + reflexivity.
    + cbn. lia.
Defined.

(** ** Further properties of the sources *)

(** *** Binary search and [memory::managed::accessors] *)

Lemma lower_bound_loop_partitioned (fuel : nat) :
  forall (a : list Z) (first len val k : Z),
    (Z.to_nat len <= fuel)%nat -> 0 <= first -> 0 <= len ->
    first <= k <= first + len ->
    (forall i, first <= i < k -> nth (Z.to_nat i) a 0 < val) ->
    (forall i, k <= i < first + len -> val <= nth (Z.to_nat i) a 0) ->
    lower_bound_loop fuel a first len val = k.
Proof.
  induction fuel as [ | fuel IH]; intros a first len val k Hfuel Hfirst Hlen
    Hk Hbelow Habove; cbn [lower_bound_loop].
  - lia.
  - destruct (Z.ltb_spec 0 len) as [Hpos | Hzero]; [ | lia].
    assert (Hhalf : 0 <= len / 2 < len)
      by (split; [apply Z.div_pos; lia | apply Z.div_lt_upper_bound; lia]).
    destruct (Z.ltb_spec (nth (Z.to_nat (first + len / 2)) a 0) val)
      as [Hlt | Hge].
    + assert (Hmid : first + len / 2 < k).
      { destruct (Z_lt_le_dec (first + len / 2) k) as [ | Hle]; [assumption | ].
        specialize (Habove (first + len / 2)). lia. }
      apply IH; try lia.
      * intros i Hi. apply Hbelow. lia.
      * intros i Hi. apply Habove. lia.
    + assert (Hmid : k <= first + len / 2).
      { destruct (Z_lt_le_dec (first + len / 2) k) as [Hlt | ]; [ | assumption].
        specialize (Hbelow (first + len / 2)). lia. }
      apply IH; try lia.
      * intros i Hi. apply Hbelow. lia.
      * intros i Hi. apply Habove. lia.
Qed.

Lemma lower_bound_loop_range (fuel : nat) :
  forall (a : list Z) (first len val : Z),
    0 <= len ->
    first <= lower_bound_loop fuel a first len val <= first + len.
Proof.
  induction fuel as [ | fuel IH]; intros a first len val Hlen;
    cbn [lower_bound_loop]; [lia | ].
  destruct (Z.ltb_spec 0 len) as [Hpos | Hzero]; [ | lia].
  assert (Hhalf : 0 <= len / 2 < len)
    by (split; [apply Z.div_pos; lia | apply Z.div_lt_upper_bound; lia]).
  destruct (nth (Z.to_nat (first + len / 2)) a 0 <? val).
  - specialize (IH a (first + len / 2 + 1) (len - len / 2 - 1) val). lia.
  - specialize (IH a first (len / 2) val). lia.
Qed.

(** X1: on a range that is partitioned with respect to [< val] (the elements
    below [val] first, [k] of them), [lower_bound] returns the partition point
    [k]: the position of the first element that is not below [val]. *)
Theorem lower_bound_partition_point (a : list Z) (n val k : Z) :
  0 <= k <= n ->
  (forall i, 0 <= i < k -> nth (Z.to_nat i) a 0 < val) ->
  (forall i, k <= i < n -> val <= nth (Z.to_nat i) a 0) ->
  lower_bound a n val = k.
Proof.
  intros Hk Hbelow Habove. unfold lower_bound.
  apply lower_bound_loop_partitioned; try lia; assumption.
Qed.

Lemma lower_bound_partition_point_witness :
  lower_bound [-7; -5; -2; 0; 3] 5 cudaInvalidDeviceId = 2.
Proof.
  apply lower_bound_partition_point.
  - lia.
  - intros i Hi.
    assert (Hcases : i = 0 \/ i = 1) by lia.
    destruct Hcases as [-> | ->]; vm_compute; reflexivity.
  - intros i Hi.
    assert (Hcases : i = 2 \/ i = 3 \/ i = 4) by lia.
    destruct Hcases as [-> | [-> | ->]]; vm_compute; congruence.
Defined.

(** X2: whatever the range holds, partitioned or not, [lower_bound] returns a
    position within it, from 0 to [n] inclusive. *)
Theorem lower_bound_within_range (a : list Z) (n val : Z) :
  0 <= n -> 0 <= lower_bound a n val <= n.
Proof.
  intro Hn. unfold lower_bound.
  pose proof (lower_bound_loop_range (Z.to_nat n) a 0 n val Hn). lia.
Qed.

Lemma lower_bound_within_range_witness :
  0 <= lower_bound [4; -2; 9; -2] 4 cudaInvalidDeviceId <= 4.
Proof. apply lower_bound_within_range. lia. Defined.

(** What [device::count] leaves behind, and the sign of what it returns. *)
Lemma count_world (P : platform) (w : world) :
  snd (count P w) =
  {| ambient := ambient w; issued := issued w ++ [cudaGetDeviceCount] |}.
Proof.
  unfold count, bind, native, throw_if_error, ret, throw; cbn.
  destruct (_ =? status.no_device); [reflexivity | ].
  destruct (is_success _); cbn; [ | reflexivity].
  destruct (_ <? 0); reflexivity.
Qed.

Lemma count_returned_nonnegative (P : platform) (w : world) (n : Z) :
  fst (count P w) = Returned n -> 0 <= n.
Proof.
  unfold count, bind, native, throw_if_error, ret, throw; cbn.
  destruct (_ =? status.no_device); cbn.
  - intro Hret. injection Hret as <-. lia.
  - destruct (is_success _); cbn; [ | discriminate].
    destruct (Z.ltb_spec (out1 (driver P (ambient w) (issued w)
                                  cudaGetDeviceCount)) 0) as [Hneg | Hpos];
      cbn; [discriminate | ].
    intro Hret. injection Hret as <-. exact Hpos.
Qed.

Lemma resize_within {A} (d : A) (k : Z) (v : list A) :
  (Z.to_nat k <= List.length v)%nat -> resize d k v = firstn (Z.to_nat k) v.
Proof.
  intro Hk. unfold resize.
  replace (Z.to_nat k - List.length v)%nat with 0%nat by lia.
  cbn. apply app_nil_r.
Qed.

(** How [accessors] ends once the count and the range query have succeeded. *)
Lemma accessors_after_query (P : platform)
    (oracle : ambient_t -> list driver_call -> Z -> Z -> Z -> status_t * list Z)
    (vd : device_t) (region_start region_size : Z) (w : world)
    (n : Z) (ids : list Z) :
  fst (count P w) = Returned n ->
  oracle (ambient w) (issued w ++ [cudaGetDeviceCount])
    (sizeof_device_t * n) region_start region_size = (status.success, ids) ->
  fst (accessors P oracle vd region_start region_size w) =
  Returned
    (if negb (lower_bound ids n cudaInvalidDeviceId =? n)
     then resize vd (lower_bound ids n cudaInvalidDeviceId)
            (map device.get ids)
     else map device.get ids).
Proof.
  intros Hcount Horacle.
  pose proof (count_world P w) as Hworld.
  unfold accessors, bind.
  destruct (count P w) as [o w']. cbn in Hcount, Hworld. subst o w'.
  cbn [ambient issued]. rewrite Horacle. cbn.
  destruct (negb _); reflexivity.
Qed.

(** X3: when the array the runtime hands back holds nothing below
    [cudaInvalidDeviceId] (device ids, and the invalid id as padding),
    [accessors] returns no device at all, however many ids the array holds:
    the search for the first invalid element stops at position 0. *)
Theorem accessors_reports_no_device (P : platform)
    (oracle : ambient_t -> list driver_call -> Z -> Z -> Z -> status_t * list Z)
    (vd : device_t) (region_start region_size : Z) (w : world)
    (n : Z) (ids : list Z) :
  fst (count P w) = Returned n ->
  oracle (ambient w) (issued w ++ [cudaGetDeviceCount])
    (sizeof_device_t * n) region_start region_size = (status.success, ids) ->
  List.length ids = Z.to_nat n ->
  (forall id, In id ids -> cudaInvalidDeviceId <= id) ->
  fst (accessors P oracle vd region_start region_size w) = Returned [].
Proof.
  intros Hcount Horacle Hlen Hids.
  pose proof (count_returned_nonnegative P w n Hcount) as Hn.
  rewrite (accessors_after_query P oracle vd region_start region_size w n ids
             Hcount Horacle).
  assert (Hlb : lower_bound ids n cudaInvalidDeviceId = 0).
  { unfold lower_bound. apply lower_bound_loop_partitioned; try lia.
    intros i Hi. apply Hids. apply nth_In. lia. }
  rewrite Hlb.
  destruct (Z.eqb_spec 0 n) as [Hzero | Hpos]; cbn [negb].
  - destruct ids; [reflexivity | cbn in Hlen; lia].
  - rewrite resize_within by (cbn; lia). reflexivity.
Qed.

Lemma accessors_reports_no_device_witness :
  fst (accessors cuda_11 accessed_by_both (device.get 0) 4096 64 idle_world) =
  Returned [].
Proof.
  apply (accessors_reports_no_device cuda_11 accessed_by_both (device.get 0)
           4096 64 idle_world 2 [0; 1]).
  - vm_compute. reflexivity.
  - reflexivity.
  - reflexivity.
  - intros id [<- | [<- | []]]; vm_compute; congruence.
Defined.

(** X4: what [accessors] returns is always a prefix of the ids the runtime
    handed back, wrapped as devices: never more devices than [device::count]
    counted, and never a device the runtime did not name. *)
Theorem accessors_returns_prefix (P : platform)
    (oracle : ambient_t -> list driver_call -> Z -> Z -> Z -> status_t * list Z)
    (vd : device_t) (region_start region_size : Z) (w : world)
    (n : Z) (ids : list Z) (devices : list device_t) :
  fst (count P w) = Returned n ->
  oracle (ambient w) (issued w ++ [cudaGetDeviceCount])
    (sizeof_device_t * n) region_start region_size = (status.success, ids) ->
  List.length ids = Z.to_nat n ->
  fst (accessors P oracle vd region_start region_size w) = Returned devices ->
  exists k : nat,
    (k <= Z.to_nat n)%nat /\ devices = map device.get (firstn k ids).
Proof.
  intros Hcount Horacle Hlen Hret.
  pose proof (count_returned_nonnegative P w n Hcount) as Hn.
  rewrite (accessors_after_query P oracle vd region_start region_size w n ids
             Hcount Horacle) in Hret.
  injection Hret as <-.
  pose proof (lower_bound_loop_range (Z.to_nat n) ids 0 n
                cudaInvalidDeviceId Hn) as Hrange.
  fold (lower_bound ids n cudaInvalidDeviceId) in Hrange.
  destruct (negb _).
  - exists (Z.to_nat (lower_bound ids n cudaInvalidDeviceId)). split; [lia | ].
    rewrite resize_within by (rewrite length_map; lia).
    apply firstn_map.
  - exists (Z.to_nat n). split; [lia | ].
    rewrite <- Hlen, firstn_all. reflexivity.
Qed.

Lemma accessors_returns_prefix_witness :
  exists k : nat,
    (k <= Z.to_nat 2)%nat /\ [] = map device.get (firstn k [0; 1]).
Proof.
  apply (accessors_returns_prefix cuda_11 accessed_by_both (device.get 0)
           4096 64 idle_world 2 [0; 1] []).
  - vm_compute. reflexivity.
  - reflexivity.
  - reflexivity.
  - vm_compute. reflexivity.
Defined.

(** *** Guards around one native call *)

(** A guard around a body that leaves the ambient state alone gives the body's
    outcome and calls, in the world's former ambient state. *)
Lemma scoped_override_run {A} (t : override_target) (body : M A) (w : world)
    (o : outcome A) (calls : list driver_call) :
  body (with_ambient (set_current t (ambient w)) w) =
    (o, {| ambient := set_current t (ambient w); issued := calls |}) ->
  scoped_override t body w = (o, {| ambient := ambient w; issued := calls |}).
Proof.
  intro Hbody. unfold scoped_override. rewrite Hbody.
  unfold with_ambient; cbn [ambient issued].
  rewrite set_current_slot_value. reflexivity.
Qed.

Lemma set_attribute_run (P : platform) (k : kernel_t) (a : attribute_t)
    (v : Z) (w : world) :
  let call := cudaFuncSetAttribute (ptr_ k) a v in
  let answer :=
    driver P (set_current (override_device (device_id_ k)) (ambient w))
      (issued w) call in
  set_attribute P k a v w =
  ((if is_success (result_status answer) then Returned tt
    else Thrown (runtime_error (result_status answer)
           ("Setting CUDA device function attribute " ++
            to_string (attribute_index a) ++ " to value " ++ to_string v))),
   {| ambient := ambient w; issued := issued w ++ [call] |}).
Proof.
  cbv zeta. unfold set_attribute. apply scoped_override_run.
  unfold bind, native, throw_if_error, ret, throw; cbn.
  destruct (is_success _); reflexivity.
Qed.

Lemma get_attribute_run (P : platform) (k : kernel_t) (a : attribute_t)
    (w : world) :
  let call := cuFuncGetAttribute a (handle_ k) in
  let answer :=
    driver P (set_current (override_context (context_handle_ k)) (ambient w))
      (issued w) call in
  get_attribute P k a w =
  ((if is_success (result_status answer) then Returned (out1 answer)
    else Thrown (runtime_error (result_status answer)
           ("Failed obtaining attribute " ++
            (if NDEBUG P then to_string (attribute_index a)
             else attribute_name a)))),
   {| ambient := ambient w; issued := issued w ++ [call] |}).
Proof.
  cbv zeta. unfold get_attribute. apply scoped_override_run.
  unfold get_attribute_in_current_context, bind, native, throw_if_error,
    ret, throw; cbn.
  destruct (is_success _); reflexivity.
Qed.

Lemma is_success_iff (s : status_t) :
  is_success s = true <-> s = status.success.
Proof. unfold is_success. apply Z.eqb_eq. Qed.

(** X5: attribute values are never cached.  A read that follows a successful
    [set_attribute] asks the driver anew: the driver answers with the set call
    in its history and with the kernel's context current, both native calls
    are issued in order, and the ambient state is back as it was.  When the
    set call fails, its status is thrown and the read is never issued. *)
Theorem get_attribute_after_set_attribute (P : platform) (k : kernel_t)
    (a : attribute_t) (v : Z) (a' : attribute_t) (w : world) :
  let set_call := cudaFuncSetAttribute (ptr_ k) a v in
  let get_call := cuFuncGetAttribute a' (handle_ k) in
  let set_answer :=
    driver P (set_current (override_device (device_id_ k)) (ambient w))
      (issued w) set_call in
  let get_answer :=
    driver P (set_current (override_context (context_handle_ k)) (ambient w))
      (issued w ++ [set_call]) get_call in
  let run := (set_attribute P k a v ;;; get_attribute P k a') w in
  (result_status set_answer = status.success ->
     fst run =
       (if is_success (result_status get_answer)
        then Returned (out1 get_answer)
        else Thrown (runtime_error (result_status get_answer)
               ("Failed obtaining attribute " ++
                (if NDEBUG P then to_string (attribute_index a')
                 else attribute_name a'))))
     /\ snd run = {| ambient := ambient w;
                     issued := issued w ++ [set_call; get_call] |})
  /\ (result_status set_answer <> status.success ->
     (exists what,
        fst run = Thrown (runtime_error (result_status set_answer) what))
     /\ snd run = {| ambient := ambient w;
                     issued := issued w ++ [set_call] |}).
Proof.
  cbv zeta. unfold bind. rewrite set_attribute_run. cbv zeta.
  destruct (is_success _) eqn:Hset.
  - apply is_success_iff in Hset.
    rewrite get_attribute_run. cbv zeta. cbn [ambient issued fst snd].
    rewrite <- app_assoc. cbn [app].
    split; intro H; [split; reflexivity | contradiction].
  - split; intro H.
    + apply is_success_iff in H. congruence.
    + cbn. split; [eexists | ]; reflexivity.
Qed.

Lemma get_attribute_after_set_attribute_witness :
  fst ((set_attribute cuda_11_remembering kernel_on_device_1
          CU_FUNC_ATTRIBUTE_MAX_DYNAMIC_SHARED_SIZE_BYTES 4096 ;;;
        get_attribute cuda_11_remembering kernel_on_device_1
          CU_FUNC_ATTRIBUTE_MAX_DYNAMIC_SHARED_SIZE_BYTES) idle_world) =
  Returned 4096.
Proof.
  apply (proj1 (proj1 (get_attribute_after_set_attribute cuda_11_remembering
                         kernel_on_device_1
                         CU_FUNC_ATTRIBUTE_MAX_DYNAMIC_SHARED_SIZE_BYTES 4096
                         CU_FUNC_ATTRIBUTE_MAX_DYNAMIC_SHARED_SIZE_BYTES
                         idle_world) eq_refl)).
Defined.

(** X6: an event of the stream's own device is recorded by
    [stream_t::enqueue_t::event] with exactly one native call, made while the
    stream's device is the current one; the event itself is returned on
    success, the driver's status is thrown on failure, and either way the
    ambient state is back as it was. *)
Theorem enqueue_event_records_on_stream_device (P : platform) (s : stream_t)
    (e : event_t) (w : world) :
  event_device_id_ e = stream_device_id_ s ->
  let call := cudaEventRecord (event_handle_ e) (stream_handle_ s) in
  let answer :=
    driver P (set_current (override_device (stream_device_id_ s)) (ambient w))
      (issued w) call in
  enqueue_event P s e w =
  ((if is_success (result_status answer) then Returned e
    else Thrown (runtime_error (result_status answer)
           ("Failed scheduling " ++ event_identify P (event_handle_ e) ++
            " to occur" ++ " on stream " ++
            stream_identify P (stream_handle_ s) (stream_device_id_ s)))),
   {| ambient := ambient w; issued := issued w ++ [call] |}).
Proof.
  intro Hsame. cbv zeta. unfold enqueue_event.
  rewrite Hsame, Z.eqb_refl. cbn [negb].
  apply scoped_override_run.
  unfold record_event_on_current_device, bind, native, throw_if_error,
    ret, throw; cbn.
  destruct (is_success _); reflexivity.
Qed.

Lemma enqueue_event_records_on_stream_device_witness :
  enqueue_event cuda_11_remembering stream_on_device_1 event_on_device_1
    idle_world =
  (Returned event_on_device_1,
   {| ambient := ambient idle_world; issued := [cudaEventRecord 901 501] |}).
Proof.
  apply (enqueue_event_records_on_stream_device cuda_11_remembering
           stream_on_device_1 event_on_device_1 idle_world).
  reflexivity.
Defined.

(** X7: [device_t::create_stream] asks the driver for the stream while its own
    device is the current one; the proxy it returns is on that device, holds
    the handle the driver gave and owns it; a failure is thrown with the
    driver's status; either way one native call is issued and the ambient state
    is back as it was. *)
Theorem create_stream_on_own_device (P : platform) (d : device_t)
    (synchronizes : bool) (priority : Z) (w : world) :
  let call := cudaStreamCreateWithPriority synchronizes priority in
  let answer :=
    driver P (set_current (override_device (id_ d)) (ambient w))
      (issued w) call in
  snd (create_stream P d synchronizes priority w) =
    {| ambient := ambient w; issued := issued w ++ [call] |}
  /\ (result_status answer = status.success ->
      fst (create_stream P d synchronizes priority w) =
      Returned {| stream_device_id_ := id_ d;
                  stream_handle_ := out1 answer;
                  stream_owning := true |})
  /\ (result_status answer <> status.success ->
      exists what,
        fst (create_stream P d synchronizes priority w) =
        Thrown (runtime_error (result_status answer) what)).
Proof.
  cbv zeta.
  assert (Hrun : create_stream P d synchronizes priority w =
    ((if is_success (result_status
            (driver P (set_current (override_device (id_ d)) (ambient w))
               (issued w) (cudaStreamCreateWithPriority synchronizes priority)))
      then Returned {| stream_device_id_ := id_ d;
                       stream_handle_ := out1
            (driver P (set_current (override_device (id_ d)) (ambient w))
               (issued w) (cudaStreamCreateWithPriority synchronizes priority));
                       stream_owning := true |}
      else Thrown (runtime_error (result_status
            (driver P (set_current (override_device (id_ d)) (ambient w))
               (issued w) (cudaStreamCreateWithPriority synchronizes priority)))
             "Failed creating a new stream")),
     {| ambient := ambient w;
        issued := issued w ++
                  [cudaStreamCreateWithPriority synchronizes priority] |})).
  { unfold create_stream. apply scoped_override_run.
    unfold create_on_current_device, bind, native, throw_if_error, ret, throw;
      cbn.
    destruct (is_success _); reflexivity. }
  rewrite Hrun. cbn [fst snd].
  split; [reflexivity | split; intro H].
  - apply is_success_iff in H. rewrite H. reflexivity.
  - destruct (is_success _) eqn:Hs.
    + apply is_success_iff in Hs. contradiction.
    + eexists. reflexivity.
Qed.

Lemma create_stream_on_own_device_witness :
  fst (create_stream cuda_11_remembering (device.get 1) true 0 idle_world) =
  Returned {| stream_device_id_ := 1; stream_handle_ := 1;
              stream_owning := true |}.
Proof.
  apply (proj1 (proj2 (create_stream_on_own_device cuda_11_remembering
                         (device.get 1) true 0 idle_world))).
  reflexivity.
Defined.

(** *** Allocation under a guard *)

(** A guard that guards nothing changes nothing. *)
Lemma scoped_override_of_nothing (t : override_target) (w : world) :
  scoped_override t (ret tt) w = (Returned tt, w).
Proof.
  rewrite (scoped_override_run t (ret tt) w (Returned tt) (issued w))
    by reflexivity.
  destruct w; reflexivity.
Qed.

(** X8: [memory::managed::make_unique(device, ...)] allocates in the ambient
    state of its caller: its guard is gone before the allocation starts, so
    the device argument has no effect; [memory::device::make_unique(device,
    ...)] runs the allocation with the device current, and restores the
    ambient slot afterwards. *)
Theorem managed_make_unique_ignores_device (A : Type) (d : device_t)
    (make_unique : M A) (w : world) :
  memory_managed_make_unique d make_unique w = make_unique w
  /\ fst (memory_device_make_unique d make_unique w) =
     fst (make_unique
            (with_ambient (set_current (override_device (id_ d)) (ambient w)) w))
  /\ current_device (ambient (snd (memory_device_make_unique d make_unique w)))
     = current_device (ambient w).
Proof.
  repeat split.
  - unfold memory_managed_make_unique, bind.
    rewrite scoped_override_of_nothing. reflexivity.
  - apply scoped_override_outcome.
  - pose proof (scoped_override_restores_slot (override_device (id_ d))
                  make_unique w) as Hslot.
    cbn in Hslot. injection Hslot as Hdev. exact Hdev.
Qed.

(** With a driver that answers the current device as the new handle: asked for
    device 1 while device 0 is current, the managed variant allocates on
    device 0, the device variant on device 1. *)
Example make_unique_on_device_1 :
  fst (memory_managed_make_unique (device.get 1)
         (create_on_current_device cuda_11_remembering true 0) idle_world) =
    Returned 0
  /\ fst (memory_device_make_unique (device.get 1)
            (create_on_current_device cuda_11_remembering true 0) idle_world) =
    Returned 1.
Proof. split; vm_compute; reflexivity. Qed.

(** *** The two ways to raise the dynamic shared memory limit *)

Lemma opt_in_run (P : platform) (k : kernel_t) (amount : Z) (w : world) :
  9000 <= CUDART_VERSION P ->
  let call := cudaFuncSetAttribute (ptr_ k)
                cudaFuncAttributeMaxDynamicSharedMemorySize (cast_int amount) in
  let answer :=
    driver P (set_current (override_device (device_id_ k)) (ambient w))
      (issued w) call in
  is_returned (fst (opt_in_to_extra_dynamic_memory P k amount w)) =
    is_success (result_status answer)
  /\ snd (opt_in_to_extra_dynamic_memory P k amount w) =
     {| ambient := ambient w; issued := issued w ++ [call] |}.
Proof.
  intro Hv. cbv zeta.
  unfold opt_in_to_extra_dynamic_memory.
  destruct (Z.leb_spec 9000 (CUDART_VERSION P)); [ | lia].
  match goal with
  | |- context [scoped_override ?t ?body w] =>
      assert (Hbody : exists o,
        body (with_ambient (set_current t (ambient w)) w) =
          (o, {| ambient := set_current t (ambient w);
                 issued := issued w ++
                   [cudaFuncSetAttribute (ptr_ k)
                      cudaFuncAttributeMaxDynamicSharedMemorySize
                      (cast_int amount)] |})
        /\ is_returned o =
           is_success (result_status
             (driver P (set_current t (ambient w)) (issued w)
                (cudaFuncSetAttribute (ptr_ k)
                   cudaFuncAttributeMaxDynamicSharedMemorySize
                   (cast_int amount)))))
  end.
  { unfold bind, native, throw_if_error, ret, throw; cbn.
    destruct (is_success _); eexists; split; reflexivity. }
  destruct Hbody as [o [Hbody Ho]].
  rewrite (scoped_override_run _ _ _ _ _ Hbody).
  split; [exact Ho | reflexivity].
Qed.

(** X9: for an amount that [int] can hold, both ways of raising the limit make
    the same native call, with exactly that amount, under the kernel's device,
    and succeed or fail together.
    [set_maximum_dynamic_shared_memory_per_block] does so on every toolkit
    revision; [opt_in_to_extra_dynamic_memory] from revision 9000 on. *)
Theorem dynamic_shared_memory_setters_agree (P : platform) (k : kernel_t)
    (amount : Z) (w : world) :
  0 <= amount <= INT_MAX -> amount < 2 ^ shared_size_bits P ->
  let call := cudaFuncSetAttribute (ptr_ k)
                CU_FUNC_ATTRIBUTE_MAX_DYNAMIC_SHARED_SIZE_BYTES amount in
  let answer :=
    driver P (set_current (override_device (device_id_ k)) (ambient w))
      (issued w) call in
  (snd (set_maximum_dynamic_shared_memory_per_block P k amount w) =
     {| ambient := ambient w; issued := issued w ++ [call] |}
   /\ is_returned (fst (set_maximum_dynamic_shared_memory_per_block P k amount w))
      = is_success (result_status answer))
  /\ (9000 <= CUDART_VERSION P ->
      snd (opt_in_to_extra_dynamic_memory P k amount w) =
        snd (set_maximum_dynamic_shared_memory_per_block P k amount w)
      /\ is_returned (fst (opt_in_to_extra_dynamic_memory P k amount w)) =
         is_returned (fst (set_maximum_dynamic_shared_memory_per_block P k
                             amount w))).
Proof.
  intros Hint Hsize. cbv zeta.
  assert (Hcast : cast_int amount = amount).
  { apply cast_int_representable. unfold INT_MIN, INT_MAX, int_bits in *.
    cbn in *. lia. }
  assert (Hset : set_maximum_dynamic_shared_memory_per_block P k amount w =
                 set_attribute P k
                   CU_FUNC_ATTRIBUTE_MAX_DYNAMIC_SHARED_SIZE_BYTES amount w).
  { unfold set_maximum_dynamic_shared_memory_per_block.
    rewrite Hcast. unfold cast_unsigned.
    rewrite Z.mod_small by lia. rewrite Z.eqb_refl. reflexivity. }
  rewrite Hset, set_attribute_run. cbv zeta. cbn [fst snd].
  split.
  - split; [reflexivity | destruct (is_success _); reflexivity].
  - intro Hv.
    destruct (opt_in_run P k amount w Hv) as [Ho Hw]. cbv zeta in Ho, Hw.
    rewrite Hcast in Ho, Hw. rewrite Hw, Ho.
    split; [reflexivity | destruct (is_success _); reflexivity].
Qed.

Lemma dynamic_shared_memory_setters_agree_witness :
  snd (set_maximum_dynamic_shared_memory_per_block cuda_8 kernel_on_device_1
         65536 idle_world) =
    {| ambient := ambient idle_world;
       issued := [cudaFuncSetAttribute 7001
                    CU_FUNC_ATTRIBUTE_MAX_DYNAMIC_SHARED_SIZE_BYTES 65536] |}
  /\ snd (opt_in_to_extra_dynamic_memory cuda_11 kernel_on_device_1 65536
            idle_world) =
     snd (set_maximum_dynamic_shared_memory_per_block cuda_11
            kernel_on_device_1 65536 idle_world).
Proof.
  split.
  - apply (proj1 (proj1 (dynamic_shared_memory_setters_agree cuda_8
                           kernel_on_device_1 65536 idle_world
                           ltac:(vm_compute; split; congruence)
                           ltac:(vm_compute; reflexivity)))).
  - apply (proj1 (proj2 (dynamic_shared_memory_setters_agree cuda_11
                           kernel_on_device_1 65536 idle_world
                           ltac:(vm_compute; split; congruence)
                           ltac:(vm_compute; reflexivity))
                    ltac:(vm_compute; congruence))).
Defined.

(** *** Occupancy and launch run where the caller is *)

(** X10: [kernel_t::min_grid_params_for_max_occupancy] takes no guard: in a
    build by the CUDA compiler and past the toolkit gate it makes one native
    query, answered in the caller's ambient state whatever the kernel's own
    device is (the device id only enters the failure message), and returns
    the two [int]s the driver wrote converted to the unsigned grid size and
    block size. *)
Theorem occupancy_query_runs_in_ambient_state (P : platform) (k : kernel_t)
    (f : Z -> Z) (block_size_limit : Z) (disable_caching_override : bool)
    (w : world) :
  defined_CUDACC P = true ->
  10000 < CUDART_VERSION P ->
  let call :=
    cudaOccupancyMaxPotentialBlockSizeVariableSMemWithFlags (ptr_ k) f
      (cast_int block_size_limit)
      (if disable_caching_override then cudaOccupancyDisableCachingOverride
       else cudaOccupancyDefault) in
  let answer := driver P (ambient w) (issued w) call in
  invoke (kernel_min_grid_params_for_max_occupancy P k f block_size_limit
            disable_caching_override) w =
  Some
    ((if is_success (result_status answer)
      then Returned (cast_unsigned int_bits (out1 answer),
                     cast_unsigned int_bits (out2 answer))
      else Thrown (runtime_error (result_status answer)
             ("Failed obtaining parameters for a minimum-size grid for kernel "
              ++ ptr_as_hex P (ptr_ k) ++ " on device " ++
              to_string (device_id_ k) ++ "."))),
     {| ambient := ambient w; issued := issued w ++ [call] |}).
Proof.
  intros Hcc Hv. cbv zeta.
  unfold kernel_min_grid_params_for_max_occupancy,
    detail_min_grid_params_for_max_occupancy, if_defined_CUDACC.
  rewrite Hcc. cbn [invoke].
  destruct (Z.leb_spec (CUDART_VERSION P) 10000); [lia | ].
  unfold bind, native, throw_if_error, ret, throw, complete_dimensions; cbn.
  destruct (is_success _); reflexivity.
Qed.

Lemma occupancy_query_runs_in_ambient_state_witness :
  option_map fst
    (invoke (kernel_min_grid_params_for_max_occupancy cuda_11_remembering
               kernel_on_device_1 (fun _ => 0) 1024 false) idle_world) =
    Some (Returned (0, 128))
  /\ option_map fst
       (invoke (kernel_min_grid_params_for_max_occupancy cuda_11_negative
                  kernel_on_device_1 (fun _ => 0) 1024 false) idle_world) =
     Some (Returned (4294967295, 4294967295)).
Proof.
  split.
  - rewrite (occupancy_query_runs_in_ambient_state cuda_11_remembering
               kernel_on_device_1 (fun _ => 0) 1024 false idle_world
               eq_refl ltac:(vm_compute; reflexivity)).
    reflexivity.
  - rewrite (occupancy_query_runs_in_ambient_state cuda_11_negative
               kernel_on_device_1 (fun _ => 0) 1024 false idle_world
               eq_refl ltac:(vm_compute; reflexivity)).
    vm_compute. reflexivity.
Defined.

(** X11: [launch], for either shape of target, is the raw-launch path on the
    default stream handle: it issues exactly the driver's launch call, never
    fails with [std::invalid_argument], takes no guard (the launch is made
    in the caller's ambient state, also for a wrapped kernel of another
    device) and leaves the ambient state untouched. *)
Theorem launch_uses_default_stream_handle (P : platform)
    (target : launch_target) (cfg : launch_configuration_t)
    (parameters : list Z) (w : world) :
  let f := match target with
           | wrapped_kernel k => ptr_ k
           | raw_kernel_function f => f
           end in
  let call := cudaLaunchKernel f stream.default_stream_handle cfg parameters in
  let answer := driver P (ambient w) (issued w) call in
  launch P target cfg parameters w =
    ((if is_success (result_status answer) then Returned tt
      else Thrown (runtime_error (result_status answer) "Kernel launch failed")),
     {| ambient := ambient w; issued := issued w ++ [call] |})
  /\ (forall what,
        fst (launch P target cfg parameters w) <> Thrown (invalid_argument what)).
Proof.
  cbv zeta.
  assert (Hraw : forall f,
    raw_enqueue_launch P f stream.default_stream_handle cfg parameters w =
    ((if is_success (result_status (driver P (ambient w) (issued w)
            (cudaLaunchKernel f stream.default_stream_handle cfg parameters)))
      then Returned tt
      else Thrown (runtime_error (result_status (driver P (ambient w) (issued w)
            (cudaLaunchKernel f stream.default_stream_handle cfg parameters)))
             "Kernel launch failed")),
     {| ambient := ambient w;
        issued := issued w ++
          [cudaLaunchKernel f stream.default_stream_handle cfg parameters] |})).
  { intro f. unfold raw_enqueue_launch, bind, native, throw_if_error, ret,
      throw; cbn.
    destruct (is_success _); reflexivity. }
  assert (Hlaunch : launch P target cfg parameters w =
    raw_enqueue_launch P
      (match target with
       | wrapped_kernel k => ptr_ k
       | raw_kernel_function f => f
       end) stream.default_stream_handle cfg parameters w).
  { destruct target as [k | f].
    - apply launch_wrapped_reaches_driver.
    - reflexivity. }
  rewrite Hlaunch, Hraw. split; [reflexivity | ].
  intros what. cbn [fst]. destruct (is_success _); discriminate.
Qed.

(** *** The [noexcept] readers *)

(** X12: [ptx_version] and [binary_compilation_target_architecture] complete
    exactly when the driver's attribute read succeeds: then they return the
    compute capability decoded from the value read under the kernel's
    context, having issued that one read and restored the ambient state;
    on any other status the program is terminated. *)
Theorem noexcept_readers_complete_or_terminate (P : platform) (k : kernel_t)
    (w : world) :
  let read := fun a =>
    driver P (set_current (override_context (context_handle_ k)) (ambient w))
      (issued w) (cuFuncGetAttribute a (handle_ k)) in
  let expected := fun a =>
    if is_success (result_status (read a))
    then Completed (from_combined_number P (out1 (read a)))
           {| ambient := ambient w;
              issued := issued w ++ [cuFuncGetAttribute a (handle_ k)] |}
    else std_terminate in
  ptx_version P k w = expected CU_FUNC_ATTRIBUTE_PTX_VERSION
  /\ binary_compilation_target_architecture P k w =
     expected CU_FUNC_ATTRIBUTE_BINARY_VERSION.
Proof.
  cbv zeta.
  unfold ptx_version, binary_compilation_target_architecture, noexcept, bind.
  rewrite !get_attribute_run. cbv zeta.
  split; destruct (is_success _); reflexivity.
Qed.

(** *** Failure messages *)

(** X13: the message of a failed [get_attribute] tells which attribute was
    read, in debug builds (by name) and in [NDEBUG] builds (by index): two
    failed reads on one platform with the same message are reads of the same
    attribute. *)
Theorem get_attribute_failure_names_attribute (P : platform)
    (k k' : kernel_t) (a a' : attribute_t) (w w' : world)
    (code code' : status_t) (what : string) :
  fst (get_attribute P k a w) = Thrown (runtime_error code what) ->
  fst (get_attribute P k' a' w') = Thrown (runtime_error code' what) ->
  a = a'.
Proof.
  rewrite !get_attribute_run. cbv zeta. cbn [fst].
  destruct (is_success _); [discriminate | ].
  destruct (is_success _); [discriminate | ].
  intros H1 H2. injection H1 as _ H1. injection H2 as _ H2.
  rewrite <- H2 in H1. clear H2.
  destruct (NDEBUG P), a, a'; try reflexivity; vm_compute in H1;
    discriminate H1.
Qed.

Lemma get_attribute_failure_names_attribute_witness :
  CU_FUNC_ATTRIBUTE_NUM_REGS = CU_FUNC_ATTRIBUTE_NUM_REGS.
Proof.
  apply (get_attribute_failure_names_attribute cuda_11_rejecting
           kernel_on_device_1 kernel_on_device_1
           CU_FUNC_ATTRIBUTE_NUM_REGS CU_FUNC_ATTRIBUTE_NUM_REGS
           idle_world idle_world 1 1
           "Failed obtaining attribute Number of registers used by each thread").
  - vm_compute. reflexivity.
  - vm_compute. reflexivity.
Defined.
